(** * Crime dashboard: filter, aggregation, forecast, loader and generator

    A shallow embedding of [app.py] (the dashboard script) and
    [gen_crime_data.py] (the synthetic data generator).

    Conventions.
    - A pandas [DataFrame] is a list of rows, a [Series] a list of values.
    - A pandas [Timestamp] is a calendar date with a time of day.
    - Floating-point values (coordinates, regression coefficients) are
      modelled as exact rationals [Q]; equalities between them are stated
      with [==]. *)

From Stdlib Require Import ZArith List Bool String Ascii Lia QArith Qround.
From Stdlib Require Import Permutation Sorted Lqa.
From Stdlib Require Finite.
Import ListNotations.
Open Scope Z_scope.

Set Implicit Arguments.

(** ** Calendar dates and timestamps *)

Module Calendar.

(** [datetime.date]: compared as the tuple (year, month, day). *)
Record date : Type := mkdate { year : Z; month : Z; day : Z }.

Definition date_cmp (a b : date) : comparison :=
  match year a ?= year b with
  | Eq => match month a ?= month b with
          | Eq => day a ?= day b
          | c => c
          end
  | c => c
  end.

Definition date_leb (a b : date) : bool :=
  match date_cmp a b with Gt => false | _ => true end.

(** The order on dates, stated independently of [date_cmp]. *)
Definition date_le (a b : date) : Prop :=
  year a < year b \/
  (year a = year b /\
   (month a < month b \/ (month a = month b /\ day a <= day b))).

Definition is_leap (y : Z) : bool :=
  (y mod 4 =? 0) && (negb (y mod 100 =? 0) || (y mod 400 =? 0)).

Definition days_in_month (y m : Z) : Z :=
  if m =? 2 then (if is_leap y then 29 else 28)
  else if (m =? 4) || (m =? 6) || (m =? 9) || (m =? 11) then 30
  else 31.

Definition valid_date (d : date) : Prop :=
  1 <= month d <= 12 /\ 1 <= day d <= days_in_month (year d) (month d).

(** [pandas.Timestamp]: a date and the nanoseconds elapsed since midnight. *)
Record Timestamp : Type := mkts { ts_date : date; ts_nanos : Z }.

Definition ts_year (t : Timestamp) : Z := year (ts_date t).
Definition ts_month (t : Timestamp) : Z := month (ts_date t).

Definition ts_cmp (a b : Timestamp) : comparison :=
  match date_cmp (ts_date a) (ts_date b) with
  | Eq => ts_nanos a ?= ts_nanos b
  | c => c
  end.

Definition ts_leb (a b : Timestamp) : bool :=
  match ts_cmp a b with Gt => false | _ => true end.

Definition ts_max (a b : Timestamp) : Timestamp := if ts_leb a b then b else a.
Definition ts_min (a b : Timestamp) : Timestamp := if ts_leb a b then a else b.

Definition valid_ts (t : Timestamp) : Prop :=
  valid_date (ts_date t) /\ 0 <= ts_nanos t < 86400000000000.

(** [Series.max()] and [Series.min()] of a datetime column; [None] stands
    for the [NaT] pandas returns on an empty column. *)
Definition series_max (l : list Timestamp) : option Timestamp :=
  match l with
  | [] => None
  | t :: l' => Some (fold_left ts_max l' t)
  end.

Definition series_min (l : list Timestamp) : option Timestamp :=
  match l with
  | [] => None
  | t :: l' => Some (fold_left ts_min l' t)
  end.

(** [year*12 + month], the regressor the forecaster uses ([Mnum], [nm]). *)
Definition month_index (t : Timestamp) : Z := ts_year t * 12 + ts_month t.

End Calendar.
Import Calendar.

(** ** The data frame *)

(** The frame the dashboard works on when no cell is missing, each column
    at its dtype: [Date] is the column converted by [parse_dates], the
    labels are strings, the coordinates are numbers.  Frames with missing
    cells ([NaN], [NaT]) are those of [WithMissing] below; on a frame
    without missing cells the two agree ([filtered_of_rows],
    [aggregate_of_rows]). *)
Record row : Type := mkrow {
  Date : Timestamp;
  Crime_Type : string;
  Latitude : Q;
  Longitude : Q;
  District : string
}.

Definition DataFrame : Type := list row.

(** ** 3. Filters ([app.py], lines 69-75) *)

Module Filter.

(** [Series.between(left, right)], inclusive on both sides. *)
Definition between (s : list date) (left right : date) : list bool :=
  map (fun x => date_leb left x && date_leb x right) s.

(** [Series.isin(values)]. *)
Definition isin (s : list string) (values : list string) : list bool :=
  map (fun x => existsb (String.eqb x) values) s.

(** [Series == scalar]. *)
Definition series_eq (s : list string) (v : string) : list bool :=
  map (fun x => String.eqb x v) s.

(** Element-wise [&] of two boolean series. *)
Definition band (a b : list bool) : list bool :=
  map (fun p => fst p && snd p) (combine a b).

(** [df["Date"].dt.date]: the time of day is dropped. *)
Definition dt_date (df : DataFrame) : list date :=
  map (fun r => ts_date (Date r)) df.

(** Boolean indexing [df[mask]]. *)
Definition getitem_mask (df : DataFrame) (m : list bool) : DataFrame :=
  map fst (List.filter snd (combine df m)).

Definition mask (df : DataFrame) (start end_ : date) (category : string)
           (districts : list string) : list bool :=
  let mask0 :=
    band (between (dt_date df) start end_)
         (isin (map District df) districts) in
  if negb (String.eqb category "All")
  then band mask0 (series_eq (map Crime_Type df) category)
  else mask0.

Definition filtered (df : DataFrame) (start end_ : date) (category : string)
           (districts : list string) : DataFrame :=
  getitem_mask df (mask df start end_ category districts).

End Filter.

(** ** 4-7. Metrics and grouped summaries ([app.py], lines 77-106) *)

Module Aggregate.

(** Stable insertion sort, used for the orderings pandas applies to the
    grouped results. *)
Fixpoint insert_by A (leb : A -> A -> bool) (x : A) (l : list A) : list A :=
  match l with
  | [] => [x]
  | y :: l' => if leb x y then x :: l else y :: insert_by leb x l'
  end.

Definition sort_by A (leb : A -> A -> bool) (l : list A) : list A :=
  fold_right (insert_by leb) [] l.

(** [Series.unique()]: the distinct values in order of first appearance. *)
Fixpoint unique (s : list string) : list string :=
  match s with
  | [] => []
  | x :: s' => x :: List.filter (fun y => negb (String.eqb y x)) (unique s')
  end.

(** [Series.nunique()]. *)
Definition nunique (s : list string) : Z := Z.of_nat (List.length (unique s)).

(** Number of occurrences of a label in a column. *)
Definition count_label (v : string) (s : list string) : Z :=
  Z.of_nat (List.length (List.filter (String.eqb v) s)).

(** [Series.value_counts()]: one entry per distinct label, sorted by
    decreasing count. *)
Definition value_counts (s : list string) : list (string * Z) :=
  sort_by (fun a b => snd b <=? snd a)
          (map (fun v => (v, count_label v s)) (unique s)).

(** [df.groupby(col).size()]: one entry per distinct label, sorted by
    label. *)
Definition groupby_size (s : list string) : list (string * Z) :=
  map (fun v => (v, count_label v s)) (sort_by String.leb (unique s)).

(** Months counted from year 0, so that consecutive calendar months are
    consecutive integers. *)
Definition month_ord (t : Timestamp) : Z := ts_year t * 12 + (ts_month t - 1).

(** The label of a monthly bin under [freq="ME"]: midnight of the last day
    of that month. *)
Definition month_end (mo : Z) : Timestamp :=
  let y := mo / 12 in
  let m := mo mod 12 + 1 in
  mkts (mkdate y m (days_in_month y m)) 0.

Definition zrange (lo : Z) (n : nat) : list Z :=
  map (fun i => lo + Z.of_nat i) (seq 0 n).

Definition count_month (mo : Z) (df : DataFrame) : Z :=
  Z.of_nat (List.length (List.filter (fun r => month_ord (Date r) =? mo) df)).

(** [df.groupby(pd.Grouper(key="Date", freq="ME")).size()].  A [Grouper]
    with a frequency bins the time axis: pandas lays out one bin per
    month end from the month of the smallest date to the month of the
    largest date and [size()] reports the number of rows of every bin,
    also of the bins that received no row.  An empty frame has no bin. *)
Definition groupby_month_size (df : DataFrame) : list (Timestamp * Z) :=
  match series_min (map Date df), series_max (map Date df) with
  | Some first, Some last =>
      let lo := month_ord first in
      let hi := month_ord last in
      map (fun mo => (month_end mo, count_month mo df))
          (zrange lo (Z.to_nat (hi - lo + 1)))
  | _, _ => []
  end.

Definition tot (filtered : DataFrame) : Z := Z.of_nat (List.length filtered).
Definition ucat (filtered : DataFrame) : Z := nunique (map Crime_Type filtered).
Definition dud (filtered : DataFrame) : Z := nunique (map District filtered).

(** The data handed to the three charts. *)
Definition fig_ts (filtered : DataFrame) : list (Timestamp * Z) :=
  groupby_month_size filtered.
Definition fig_pie (filtered : DataFrame) : list (string * Z) :=
  value_counts (map Crime_Type filtered).
Definition fig_bar (filtered : DataFrame) : list (string * Z) :=
  groupby_size (map District filtered).

Record AggregateResult : Type := mkagg {
  total_count : Z;
  distinct_category_count : Z;
  distinct_district_count : Z;
  monthly_series : list (Timestamp * Z);
  category_breakdown : list (string * Z);
  district_breakdown : list (string * Z)
}.

Definition aggregate (filtered : DataFrame) : AggregateResult :=
  {| total_count := tot filtered;
     distinct_category_count := ucat filtered;
     distinct_district_count := dud filtered;
     monthly_series := fig_ts filtered;
     category_breakdown := fig_pie filtered;
     district_breakdown := fig_bar filtered |}.

Definition zsum (l : list Z) : Z := fold_right Z.add 0 l.

End Aggregate.

(** ** 10. Forecast ([app.py], lines 150-161) *)

Module Forecast.
Import Filter Aggregate.

(** [sklearn.linear_model.LinearRegression] with one feature: ordinary
    least squares with an intercept.  As scikit-learn does, the data are
    centred, the slope is the least-squares solution on the centred data
    and the intercept is recovered from the means. *)
Record LinearRegression : Type := mkmodel { coef_ : Q; intercept_ : Q }.

Definition qsum (l : list Q) : Q := fold_right Qplus 0%Q l.

Definition mean (l : list Q) : Q :=
  (qsum l / inject_Z (Z.of_nat (List.length l)))%Q.

Definition fit (X y : list Q) : LinearRegression :=
  let X_offset := mean X in
  let y_offset := mean y in
  let Xc := map (fun x => x - X_offset)%Q X in
  let yc := map (fun v => v - y_offset)%Q y in
  let coef :=
    (qsum (map (fun p => fst p * snd p) (combine Xc yc))
     / qsum (map (fun x => x * x) Xc))%Q in
  {| coef_ := coef; intercept_ := (y_offset - X_offset * coef)%Q |}.

Definition predict (model : LinearRegression) (x : Q) : Q :=
  (x * coef_ model + intercept_ model)%Q.

(** [hist]: the monthly counts of the rows of one district, over the whole
    (unfiltered) frame. *)
Definition hist (df : DataFrame) (pdist : string) : list (Timestamp * Z) :=
  groupby_month_size (getitem_mask df (series_eq (map District df) pdist)).

(** [nm]: the month index after the largest date of the whole frame. *)
Definition nm (last : Timestamp) : Z := month_index last + 1.

(** The body of the forecast block; [None] when no prediction is made. *)
Definition forecast (df : DataFrame) (pdist : string) : option Q :=
  let h := hist df pdist in
  if (1 <? List.length h)%nat then
    let Mnum := map (fun e => inject_Z (month_index (fst e))) h in
    let Count := map (fun e => inject_Z (snd e)) h in
    let model := fit Mnum Count in
    match series_max (map Date df) with
    | Some last => Some (predict model (inject_Z (nm last)))
    | None => None
    end
  else None.

(** The block is guarded by the availability of scikit-learn. *)
Definition forecast_block (SKLEARN_AVAILABLE : bool) (df : DataFrame)
           (pdist : string) : option Q :=
  if SKLEARN_AVAILABLE then forecast df pdist else None.

End Forecast.

(** ** Text of a CSV file *)

Module Text.

Definition comma : ascii := ","%char.
Definition newline : ascii := ascii_of_nat 10.

(** [str.split(sep)] for a one-character separator. *)
Fixpoint split_on (sep : ascii) (s : string) : list string :=
  match s with
  | EmptyString => [EmptyString]
  | String c s' =>
      if Ascii.eqb c sep then EmptyString :: split_on sep s'
      else match split_on sep s' with
           | [] => [String c EmptyString]
           | w :: ws => String c w :: ws
           end
  end.

(** [sep.join(fields)]. *)
Fixpoint join (sep : ascii) (fields : list string) : string :=
  match fields with
  | [] => EmptyString
  | [f] => f
  | f :: fs => f ++ String sep (join sep fs)
  end.

Fixpoint all_chars (P : ascii -> bool) (s : string) : bool :=
  match s with
  | EmptyString => true
  | String c s' => P c && all_chars P s'
  end.

Definition is_empty (s : string) : bool :=
  match s with EmptyString => true | _ => false end.

(** Decimal digits. *)
Definition digit_of (n : Z) : ascii := ascii_of_nat (48 + Z.to_nat n).

Definition is_digit (c : ascii) : bool :=
  let n := nat_of_ascii c in (48 <=? n)%nat && (n <=? 57)%nat.

Definition digit_val (c : ascii) : Z := Z.of_nat (nat_of_ascii c) - 48.

(** The last [w] decimal digits of [n], most significant first, put in
    front of [acc]: zero-padded formatting. *)
Fixpoint zfill (w : nat) (n : Z) (acc : string) : string :=
  match w with
  | O => acc
  | S w' => zfill w' (n / 10) (String (digit_of (n mod 10)) acc)
  end.

(** The decimal digits of a natural number, without padding. *)
Fixpoint digits_fuel (fuel : nat) (n : Z) (acc : string) : string :=
  match fuel with
  | O => acc
  | S fuel' =>
      let acc' := String (digit_of (n mod 10)) acc in
      if n / 10 =? 0 then acc' else digits_fuel fuel' (n / 10) acc'
  end.

Definition str_nat (n : Z) : string :=
  digits_fuel (S (Z.to_nat (Z.log2 n))) n EmptyString.

(** Reads a string of decimal digits. *)
Fixpoint read_digits (s : string) (acc : Z) : option Z :=
  match s with
  | EmptyString => Some acc
  | String c s' =>
      if is_digit c then read_digits s' (acc * 10 + digit_val c) else None
  end.

(** Removes the trailing zeros of a digit string. *)
Fixpoint rstrip_zeros (s : string) : string :=
  match s with
  | EmptyString => EmptyString
  | String c s' =>
      match rstrip_zeros s' with
      | EmptyString =>
          if Ascii.eqb c "0"%char then EmptyString else String c EmptyString
      | t => String c t
      end
  end.

(** [repr] of a float that is a multiple of [10^-6] of moderate size: the
    shortest decimal that reads back as the same float, with at least one
    digit after the point.  [micro] is the value in units of [10^-6]. *)
Definition repr_micro (micro : Z) : string :=
  let a := Z.abs micro in
  let frac := rstrip_zeros (zfill 6 (a mod 1000000) EmptyString) in
  ((if (micro <? 0)%Z then "-" else "")
   ++ str_nat (a / 1000000)%Z ++ "."
   ++ (if is_empty frac then "0" else frac))%string.

End Text.

(** ** The [datetime] module: ordinals and formatting *)

Module Datetime.
Import Text.

Definition days_before_year (y : Z) : Z :=
  let y1 := y - 1 in y1 * 365 + y1 / 4 - y1 / 100 + y1 / 400.

Definition DAYS_BEFORE_MONTH (m : Z) : Z :=
  nth (Z.to_nat m) [-1; 0; 31; 59; 90; 120; 151; 181; 212; 243; 273; 304; 334] 0.

Definition DAYS_IN_MONTH (m : Z) : Z :=
  nth (Z.to_nat m) [-1; 31; 28; 31; 30; 31; 30; 31; 31; 30; 31; 30; 31] 0.

Definition days_before_month (y m : Z) : Z :=
  DAYS_BEFORE_MONTH m + (if (2 <? m) && is_leap y then 1 else 0).

(** [_ymd2ord]: 0001-01-01 is day 1. *)
Definition ymd2ord (d : date) : Z :=
  days_before_year (year d) + days_before_month (year d) (month d) + day d.

Definition DI400Y : Z := 146097.
Definition DI100Y : Z := 36524.
Definition DI4Y : Z := 1461.

(** [_ord2ymd]. *)
Definition ord2ymd (n : Z) : date :=
  let n := n - 1 in
  let n400 := n / DI400Y in
  let n := n mod DI400Y in
  let y := n400 * 400 + 1 in
  let n100 := n / DI100Y in
  let n := n mod DI100Y in
  let n4 := n / DI4Y in
  let n := n mod DI4Y in
  let n1 := n / 365 in
  let n := n mod 365 in
  let y := y + n100 * 100 + n4 * 4 + n1 in
  if (n1 =? 4) || (n100 =? 4) then mkdate (y - 1) 12 31
  else
    let leapyear := (n1 =? 3) && (negb (n4 =? 24) || (n100 =? 3)) in
    let m := Z.shiftr (n + 50) 5 in
    let preceding :=
      DAYS_BEFORE_MONTH m + (if (2 <? m) && leapyear then 1 else 0) in
    if n <? preceding then
      let m := m - 1 in
      let preceding :=
        preceding
        - (DAYS_IN_MONTH m + (if (m =? 2) && leapyear then 1 else 0)) in
      mkdate y m (n - preceding + 1)
    else mkdate y m (n - preceding + 1).

(** [datetime]: a date and the seconds elapsed since midnight. *)
Record datetime : Type := mkdatetime { dt_date : date; dt_seconds : Z }.

(** [timedelta], normalised: [0 <= td_seconds < 86400]. *)
Record timedelta : Type := mktimedelta { td_days : Z; td_seconds : Z }.

(** [end - start]. *)
Definition sub (b a : datetime) : timedelta :=
  let secs := dt_seconds b - dt_seconds a in
  mktimedelta (ymd2ord (dt_date b) - ymd2ord (dt_date a) + secs / 86400)
              (secs mod 86400).

(** [start + timedelta(days=k)]. *)
Definition add_days (a : datetime) (k : Z) : datetime :=
  mkdatetime (ord2ymd (ymd2ord (dt_date a) + k)) (dt_seconds a).

(** [strftime("%Y-%m-%d")]. *)
Definition strftime_ymd (a : datetime) : string :=
  let d := dt_date a in
  zfill 4 (year d)
    (String "-" (zfill 2 (month d) (String "-" (zfill 2 (day d) EmptyString)))).

End Datetime.

(** ** [pandas.read_csv] and [DataFrame.to_csv] *)

Module Csv.
Import Text.

(** A cell of a frame as [read_csv] returns it: the text of the field, or
    a timestamp in a column converted by [parse_dates]. *)
Inductive cell : Type :=
| Txt (s : string)
| Ts (t : Timestamp).

Record Frame : Type := mkframe {
  columns : list string;
  data : list (list cell)
}.

Inductive exn : Type :=
| EmptyDataError
| MissingDateColumn
| ParserError (line : nat)
| FileNotFoundError (path : string).

Inductive outcome (A : Type) : Type :=
| Returned (a : A)
| Raised (e : exn).
Arguments Returned {A} a.
Arguments Raised {A} e.

Definition valid_dateb (d : date) : bool :=
  (1 <=? month d) && (month d <=? 12) && (1 <=? day d)
  && (day d <=? days_in_month (year d) (month d)).

(** A date in the form [YYYY-MM-DD]; the timestamp is midnight of that
    day.  Other spellings of a date are left unconverted. *)
Definition parse_date (s : string) : option Timestamp :=
  match s with
  | String y1 (String y2 (String y3 (String y4 (String h1
      (String m1 (String m2 (String h2 (String d1 (String d2
         EmptyString))))))))) =>
      if Ascii.eqb h1 "-" && Ascii.eqb h2 "-" then
        match read_digits (String y1 (String y2 (String y3 (String y4 EmptyString)))) 0,
              read_digits (String m1 (String m2 EmptyString)) 0,
              read_digits (String d1 (String d2 EmptyString)) 0 with
        | Some y, Some m, Some d =>
            if valid_dateb (mkdate y m d) then Some (mkts (mkdate y m d) 0)
            else None
        | _, _, _ => None
        end
      else None
  | _ => None
  end.

(** Position of a column name in the header. *)
Fixpoint index_of (name : string) (cols : list string) : option nat :=
  match cols with
  | [] => None
  | c :: cols' =>
      if String.eqb c name then Some O
      else option_map S (index_of name cols')
  end.

(** The fields of the data lines; a line with more fields than the header
    is an error, a line with fewer is padded with empty fields. *)
Fixpoint tokenize (width : nat) (lineno : nat) (lines : list string)
  : outcome (list (list string)) :=
  match lines with
  | [] => Returned []
  | l :: lines' =>
      let fields := split_on comma l in
      if (width <? List.length fields)%nat then Raised (ParserError lineno)
      else
        match tokenize width (S lineno) lines' with
        | Returned rows =>
            Returned ((fields ++ repeat EmptyString (width - List.length fields))
                      :: rows)
        | Raised e => Raised e
        end
  end.

(** [parse_dates=[name]]: the column is converted when every one of its
    fields reads as a date, and left as text otherwise. *)
Definition date_column (i : nat) (rows : list (list string))
  : option (list Timestamp) :=
  fold_right
    (fun r acc =>
       match parse_date (nth i r EmptyString), acc with
       | Some t, Some ts => Some (t :: ts)
       | _, _ => None
       end)
    (Some []) rows.

Fixpoint set_cell (i : nat) (c : cell) (r : list cell) : list cell :=
  match r, i with
  | [], _ => []
  | _ :: r', O => c :: r'
  | x :: r', S i' => x :: set_cell i' c r'
  end.

Definition convert_dates (i : nat) (rows : list (list string))
  : list (list cell) :=
  match date_column i rows with
  | Some ts =>
      map (fun p => set_cell i (Ts (snd p)) (map Txt (fst p))) (combine rows ts)
  | None => map (map Txt) rows
  end.

(** [pd.read_csv(source, parse_dates=["Date"])] on the text of the
    source.  Blank lines are skipped; the first line is the header.

    The reader covers the files the generator writes and their like:
    fields without quoting, no more fields on a line than the header has,
    dates in the form [YYYY-MM-DD].  Outside of these it departs from
    pandas, which takes the first field as the index when every line has
    one field more than the header, gives [NaT] for an empty date field
    and reads other spellings of a date; here the first is a
    [ParserError] and the other two leave the column as text.  Cells are
    text or timestamps; the frames with missing cells that pandas builds
    from empty fields are those of [WithMissing]. *)
Definition read_csv (text : string) : outcome Frame :=
  match List.filter (fun l => negb (is_empty l)) (split_on newline text) with
  | [] => Raised EmptyDataError
  | header :: lines =>
      let cols := split_on comma header in
      match index_of "Date" cols with
      | None => Raised MissingDateColumn
      | Some i =>
          match tokenize (List.length cols) 2 lines with
          | Returned rows => Returned (mkframe cols (convert_dates i rows))
          | Raised e => Raised e
          end
      end
  end.

(** [DataFrame.to_csv(path, index=False)] of a frame given by its column
    names and the text of its fields. *)
Definition to_csv (cols : list string) (rows : list (list string)) : string :=
  (join comma cols
   ++ String newline
        (fold_right (fun r rest => join comma r ++ String newline rest)
                    EmptyString rows))%string.

End Csv.

(** ** 2. Data load and upload ([app.py], lines 29-56) *)

Module Loader.
Import Csv.

(** What the script writes to the sidebar. *)
Inductive sidebar_event : Type :=
| success (records : nat)
| error (e : exn).

(** The session: the sidebar, and the store of [st.cache_data] for
    [load_data], keyed by the path argument. *)
Record session : Type := mksession {
  sidebar : list sidebar_event;
  cache : list (string * Frame)
}.

Definition filesystem : Type := string -> option string.

Fixpoint cache_lookup (path : string) (c : list (string * Frame))
  : option Frame :=
  match c with
  | [] => None
  | (p, f) :: c' => if String.eqb p path then Some f else cache_lookup path c'
  end.

(** [upload_csv]; [uploaded_file] is what the uploader widget returned. *)
Definition upload_csv (uploaded_file : option string) (s : session)
  : option Frame * session :=
  match uploaded_file with
  | Some text =>
      match read_csv text with
      | Returned df =>
          (Some df,
           mksession (sidebar s ++ [success (List.length (data df))]) (cache s))
      | Raised e =>
          (None, mksession (sidebar s ++ [error e]) (cache s))
      end
  | None => (None, s)
  end.

(** [load_data], under [st.cache_data]: a stored result is returned as it
    is, a computed one is stored, an exception is not stored. *)
Definition load_data (fs : filesystem) (path : string) (s : session)
  : outcome Frame * session :=
  match cache_lookup path (cache s) with
  | Some df => (Returned df, s)
  | None =>
      match fs path with
      | None => (Raised (FileNotFoundError path), s)
      | Some text =>
          match read_csv text with
          | Returned df =>
              (Returned df, mksession (sidebar s) ((path, df) :: cache s))
          | Raised e => (Raised e, s)
          end
      end
  end.

(** Lines 52-56: the frame of the session. *)
Definition load_frame (fs : filesystem) (uploaded_file : option string)
           (s : session) : outcome Frame * session :=
  let (uploaded_df, s1) := upload_csv uploaded_file s in
  match uploaded_df with
  | Some df => (Returned df, s1)
  | None => load_data fs "crime_data.csv" s1
  end.

End Loader.

(** ** The generator ([gen_crime_data.py]) *)

Module Generator.
Import Text Datetime Csv.

Definition NUM_RECORDS : nat := 2000.
Definition START_DATE : datetime := mkdatetime (mkdate 2025 1 1) 0.
Definition END_DATE : datetime := mkdatetime (mkdate 2025 5 20) 0.

Definition CRIME_TYPES : list string :=
  ["Theft"; "Assault"; "Burglary"; "Robbery";
   "Vandalism"; "Drug Offense"; "Fraud"]%string.

Definition DISTRICTS : list string :=
  ["Harare"; "Bulawayo"; "Mutare"; "Gweru";
   "Chitungwiza"; "Kadoma"; "Marondera"; "Masvingo"]%string.

Definition LAT_MIN : Q := (-22 # 1).
Definition LAT_MAX : Q := (-15 # 1).
Definition LON_MIN : Q := (25 # 1).
Definition LON_MAX : Q := (34 # 1).

(** The global generator of [np.random]: an arbitrary sequence of raw
    draws and the number of draws consumed so far. *)
Record RandomState : Type := mkrng { tape : nat -> Z; pos : nat }.

Definition next_raw (g : RandomState) : Z * RandomState :=
  (tape g (pos g), mkrng (tape g) (S (pos g))).

(** [np.random.randint(low, high)]: an integer of [low, high). *)
Definition randint (low high : Z) (g : RandomState) : Z * RandomState :=
  let (raw, g') := next_raw g in (low + raw mod (high - low), g').

(** [np.random.choice(a)]: the element at a random index. *)
Definition choice (a : list string) (g : RandomState) : string * RandomState :=
  let (i, g') := randint 0 (Z.of_nat (List.length a)) g in
  (nth (Z.to_nat i) a EmptyString, g').

(** [random_sample()]: a multiple of [2^-53] in [0, 1). *)
Definition random_sample (g : RandomState) : Q * RandomState :=
  let (raw, g') := next_raw g in
  (Qmake (raw mod 9007199254740992) 9007199254740992, g').

(** [np.random.uniform(low, high)]. *)
Definition uniform (low high : Q) (g : RandomState) : Q * RandomState :=
  let (u, g') := random_sample g in ((low + (high - low) * u)%Q, g').

(** [np.rint]: to the nearest integer, ties to the even one. *)
Definition rint (q : Q) : Z :=
  let f := Qfloor q in
  match Qcompare (q - inject_Z f) (1 # 2) with
  | Lt => f
  | Gt => f + 1
  | Eq => if Z.even f then f else f + 1
  end.

(** [np.round(x, 6)], on the exact value: numpy rounds the float product
    [x * 10^6], which can differ from it by one unit of the sixth decimal
    when the exact product is next to a tie. *)
Definition round6 (x : Q) : Q :=
  (inject_Z (rint (x * inject_Z 1000000)) / inject_Z 1000000)%Q.

Definition random_date (start end_ : datetime) (g : RandomState)
  : datetime * RandomState :=
  let delta := sub end_ start in
  let (random_days, g') := randint 0 (td_days delta + 1) g in
  (add_days start random_days, g').

(** One tuple of [records]. *)
Record record : Type := mkrecord {
  r_date : string;
  r_crime : string;
  r_lat : Q;
  r_lon : Q;
  r_district : string
}.

(** The body of the loop. *)
Definition gen_record (g : RandomState) : record * RandomState :=
  let (d, g1) := random_date START_DATE END_DATE g in
  let date := strftime_ymd d in
  let (crime, g2) := choice CRIME_TYPES g1 in
  let (district, g3) := choice DISTRICTS g2 in
  let (u1, g4) := uniform LAT_MIN LAT_MAX g3 in
  let lat := round6 u1 in
  let (u2, g5) := uniform LON_MIN LON_MAX g4 in
  let lon := round6 u2 in
  (mkrecord date crime lat lon district, g5).

(** [for _ in range(n): records.append(...)]. *)
Fixpoint gen_loop (n : nat) (g : RandomState) (records : list record)
  : list record * RandomState :=
  match n with
  | O => (records, g)
  | S n' =>
      let (r, g') := gen_record g in gen_loop n' g' (records ++ [r])
  end.

Definition records (g : RandomState) : list record :=
  fst (gen_loop NUM_RECORDS g []).

Definition COLUMNS : list string :=
  ["Date"; "Crime_Type"; "Latitude"; "Longitude"; "District"]%string.

(** The text [to_csv] writes for a float rounded to six decimals. *)
Definition repr_float (q : Q) : string :=
  repr_micro (Qfloor (q * inject_Z 1000000)).

(** The fields of a row of the frame, in the order of [COLUMNS]. *)
Definition fields (r : record) : list string :=
  [r_date r; r_crime r; repr_float (r_lat r); repr_float (r_lon r);
   r_district r].

(** The text written to [crime_data.csv]. *)
Definition crime_data_csv (g : RandomState) : string :=
  to_csv COLUMNS (map fields (records g)).

End Generator.

(** ** 9. PDF export ([app.py], lines 117-147) *)

Module Report.
Import Text Aggregate.

(** What [FPDF] has drawn on a page: a text cell or an image file. *)
Inductive item : Type :=
| Cell (txt : string)
| Image (file : nat).

(** The document: its pages in order, each with its items in order. *)
Definition FPDF : Type := list (list item).

(** [pdf.add_page()]. *)
Definition add_page (pdf : FPDF) : FPDF := pdf ++ [[]].

(** Drawing on the current page, the last one. *)
Fixpoint draw (it : item) (pdf : FPDF) : FPDF :=
  match pdf with
  | [] => []
  | [pg] => [pg ++ [it]]
  | pg :: rest => pg :: draw it rest
  end.

(** A plotly figure, as far as the export is concerned: whether
    [fig.write_image] and [pdf.image] raise on it. *)
Record figure : Type := mkfigure {
  write_image : option string;
  embed_image : option string
}.

(** The world of [generate_pdf]: the temporary files that exist, the
    supply of fresh temporary names, and the messages of [st.error]. *)
Record world : Type := mkworld {
  temp_files : list nat;
  next_temp : nat;
  st_errors : list string
}.

(** [tempfile.NamedTemporaryFile(suffix='.png', delete=False)]: a new file
    under a name not used before. *)
Definition NamedTemporaryFile (w : world) : nat * world :=
  (next_temp w,
   mkworld (next_temp w :: temp_files w) (S (next_temp w)) (st_errors w)).

(** [os.remove(name)]. *)
Definition os_remove (name : nat) (w : world) : world :=
  mkworld (List.filter (fun f => negb (Nat.eqb f name)) (temp_files w))
          (next_temp w) (st_errors w).

(** [st.error(...)]. *)
Definition st_error (msg : string) (w : world) : world :=
  mkworld (temp_files w) (next_temp w) (st_errors w ++ [msg]).

(** The body of the loop over the figures: [try] / [except Exception] /
    [finally]. *)
Definition embed_figure (st : FPDF * world) (fig : figure) : FPDF * world :=
  let (pdf, w) := st in
  let (tmp, w1) := NamedTemporaryFile w in
  let (pdf2, w2) :=
    match write_image fig with
    | Some e => (pdf, st_error e w1)
    | None =>
        let pdf1 := add_page pdf in
        match embed_image fig with
        | Some e => (pdf1, st_error e w1)
        | None => (draw (Image tmp) pdf1, w1)
        end
    end in
  (pdf2, os_remove tmp w2).

(** [str(n)] of a count. *)
Definition str_int (n : Z) : string :=
  if n <? 0 then ("-" ++ str_nat (- n))%string else str_nat n.

(** The metrics handed to the report. *)
Record metrics : Type := mkmetrics {
  m_total : Z;
  m_categories : Z;
  m_districts : Z
}.

(** The title page. *)
Definition title_page (m : metrics) : list item :=
  [Cell "Zimbabwe Crime Dashboard Report";
   Cell ("Total incidents: " ++ str_int (m_total m));
   Cell ("Crime categories: " ++ str_int (m_categories m));
   Cell ("Affected districts: " ++ str_int (m_districts m))]%string.

(** [generate_pdf]; the result is the document that [pdf.output] then
    serialises. *)
Definition generate_pdf (m : metrics) (figs : list figure) (w : world)
  : FPDF * world :=
  fold_left embed_figure figs ([title_page m], w).

(** The export button: the metrics and the four figures of the page. *)
Definition export_metrics (filtered : DataFrame) : metrics :=
  mkmetrics (tot filtered) (ucat filtered) (dud filtered).

End Report.

(** ** Vocabulary of the statements *)

Section Vocabulary.
Import Filter Aggregate.

(** The order on timestamps, stated independently of [ts_cmp]. *)
Definition ts_le (a b : Timestamp) : Prop :=
  ts_year a < ts_year b \/
  (ts_year a = ts_year b /\
   (ts_month a < ts_month b \/
    (ts_month a = ts_month b /\
     (day (ts_date a) < day (ts_date b) \/
      (day (ts_date a) = day (ts_date b) /\ ts_nanos a <= ts_nanos b))))).

(** The row-wise predicate the mask computes. *)
Definition keep (start end_ : date) (category : string)
           (districts : list string) (r : row) : bool :=
  (date_leb start (ts_date (Date r)) && date_leb (ts_date (Date r)) end_
   && existsb (String.eqb (District r)) districts)
  && (String.eqb category "All" || String.eqb (Crime_Type r) category).

(** Every row carries a timestamp of the calendar. *)
Definition valid_frame (df : DataFrame) : Prop :=
  Forall (fun r => valid_ts (Date r)) df.

(** The calendar month of a timestamp, as the pair (year, month). *)
Definition month_key (t : Timestamp) : Z * Z := (ts_year t, ts_month t).

Definition month_key_lt (a b : Z * Z) : Prop :=
  fst a < fst b \/ (fst a = fst b /\ snd a < snd b).

Definition month_key_le (a b : Z * Z) : Prop :=
  fst a < fst b \/ (fst a = fst b /\ snd a <= snd b).

Definition month_key_eq_dec (a b : Z * Z) : {a = b} + {a <> b}.
Proof. decide equality; apply Z.eq_dec. Defined.

(** Number of rows of a frame that fall in a calendar month. *)
Definition rows_in_month (k : Z * Z) (df : DataFrame) : Z :=
  Z.of_nat (List.length
    (List.filter (fun r => if month_key_eq_dec (month_key (Date r)) k
                           then true else false) df)).

(** The rows of one district. *)
Definition rows_of_district (df : DataFrame) (d : string) : DataFrame :=
  List.filter (fun r => String.eqb (District r) d) df.

(** The distinct calendar months in which the rows of a frame fall. *)
Definition distinct_months (df : DataFrame) : list (Z * Z) :=
  nodup month_key_eq_dec (map (fun r => month_key (Date r)) df).

(** Validity of a frame, as a check. *)
Definition valid_tsb (t : Timestamp) : bool :=
  Csv.valid_dateb (ts_date t)
  && (0 <=? ts_nanos t) && (ts_nanos t <? 86400000000000).

Definition valid_frameb (df : DataFrame) : bool :=
  forallb (fun r => valid_tsb (Date r)) df.

End Vocabulary.

(** ** Vocabulary of the statements about files *)

Section FileVocabulary.
Import Text Datetime Csv Generator.

(** A string without the separator. *)
Definition free_of (sep : ascii) (s : string) : bool :=
  all_chars (fun c => negb (Ascii.eqb c sep)) s.

(** A row that [to_csv] writes and [read_csv] reads back as it is. *)
Definition plain_row (width : nat) (r : list string) : Prop :=
  List.length r = width /\
  is_empty (hd EmptyString r) = false /\
  Forall (fun f => free_of comma f = true /\ free_of newline f = true) r.

Definition is_float_char (c : ascii) : bool :=
  is_digit c || Ascii.eqb c "-" || Ascii.eqb c ".".


Definition ts_eqb (a b : Timestamp) : bool :=
  (ts_year a =? ts_year b) && (ts_month a =? ts_month b)
  && (day (ts_date a) =? day (ts_date b)) && (ts_nanos a =? ts_nanos b).


(** What is checked of the date drawn with offset [k]: its text is a
    plain, non-empty field that reads back as the same day, and the day
    lies in the configured range. *)
Definition date_text_check (d : date) (s : string) : bool :=
  free_of comma s && free_of newline s && negb (is_empty s)
  && match parse_date s with
     | Some t => ts_eqb t (mkts d 0)
     | None => false
     end
  && date_leb (dt_date START_DATE) d
  && date_leb d (dt_date END_DATE).

(** A record within the configuration. *)
Definition in_config (r : record) : Prop :=
  (exists k, 0 <= k < 140 /\ r_date r = strftime_ymd (add_days START_DATE k)) /\
  In (r_crime r) CRIME_TYPES /\
  In (r_district r) DISTRICTS /\
  (LAT_MIN <= r_lat r <= LAT_MAX)%Q /\
  (LON_MIN <= r_lon r <= LON_MAX)%Q.

(** The row of the loaded frame that comes from a record. *)
Definition loaded_from (r : record) (cells : list cell) : Prop :=
  exists d,
    r_date r = strftime_ymd (mkdatetime d 0) /\
    date_le (dt_date START_DATE) d /\ date_le d (dt_date END_DATE) /\
    cells = [Ts (mkts d 0); Txt (r_crime r); Txt (repr_float (r_lat r));
             Txt (repr_float (r_lon r)); Txt (r_district r)].

End FileVocabulary.

(** ** Example data *)

Section Examples.
Import Text Csv Loader Generator.

Definition incident (y m d : Z) (crime district : string) : row :=
  mkrow (mkts (mkdate y m d) 0) crime (-178 # 10) (31 # 1) district.

(** Rows in January and in March 2025, none in February. *)
Definition gap_frame : DataFrame :=
  [incident 2025 1 10 "Theft" "Harare"; incident 2025 3 5 "Fraud" "Harare";
   incident 2025 3 9 "Theft" "Gweru"].

(** The filter left at its defaults: the whole date range of the frame,
    every category, every district. *)
Definition gap_filtered : DataFrame :=
  Filter.filtered gap_frame (mkdate 2025 1 10) (mkdate 2025 3 9) "All"
                  ["Harare"; "Gweru"]%string.


(** Harare has rows in January and February, the latest row of the frame
    is a row of Gweru in May. *)
Definition anchor_frame : DataFrame :=
  [incident 2025 1 3 "Theft" "Harare"; incident 2025 2 4 "Fraud" "Harare";
   incident 2025 2 20 "Theft" "Harare"; incident 2025 5 7 "Theft" "Gweru"].


(** The prediction the block makes for Harare on [anchor_frame]. *)
Definition anchor_prediction : Q :=
  Eval vm_compute in
    match Forecast.forecast_block true anchor_frame "Harare" with
    | Some p => p
    | None => 0%Q
    end.

(** An upload without a [Date] column and a default file. *)
Definition bad_upload : string :=
  to_csv ["Crime_Type"; "District"]%string [["Theft"; "Harare"]]%string.

Definition default_file : string :=
  to_csv COLUMNS [["2025-03-07"; "Theft"; "-17.8"; "31.0"; "Harare"]]%string.

Definition example_fs : filesystem :=
  fun path => if String.eqb path "crime_data.csv" then Some default_file
              else None.

Definition fresh_session : session := mksession [] [].

End Examples.

(** ** 3-7. The widgets, the filter and the aggregator on frames with
       missing cells ([app.py], lines 59-106) *)

(** [pd.read_csv] gives the missing value ([NaN], [NaT] in a date column)
    for an empty field.  This module is the widgets, the filter and the
    aggregator on frames whose cells may be missing, as pandas treats
    them: a comparison with a missing value is false, [min], [max],
    [nunique], [value_counts] and [groupby] leave missing values out,
    [unique] keeps the missing value as one value, and [isin] finds the
    missing value when it is among the values looked for. *)
Module WithMissing.
Import Aggregate.

Record mrow : Type := mkmrow {
  mDate : option Timestamp;
  mCrime_Type : option string;
  mLatitude : option Q;
  mLongitude : option Q;
  mDistrict : option string
}.

Definition MFrame : Type := list mrow.

(** A row of a frame without missing cells. *)
Definition of_row (r : row) : mrow :=
  mkmrow (Some (Date r)) (Some (Crime_Type r)) (Some (Latitude r))
         (Some (Longitude r)) (Some (District r)).

(** The values of a column that are present, in order. *)
Fixpoint dropna (A : Type) (s : list (option A)) : list A :=
  match s with
  | [] => []
  | Some x :: s' => x :: dropna s'
  | None :: s' => dropna s'
  end.

(** Sameness of two labels as [unique] and [isin] see it: the missing
    value is one value. *)
Definition same_label (a b : option string) : bool :=
  match a, b with
  | Some x, Some y => String.eqb x y
  | None, None => true
  | _, _ => false
  end.

(** [Series.unique()]: the distinct values in order of first appearance,
    the missing value among them when it occurs. *)
Fixpoint unique (s : list (option string)) : list (option string) :=
  match s with
  | [] => []
  | x :: s' => x :: List.filter (fun y => negb (same_label y x)) (unique s')
  end.

(** [Series.between(left, right)]: false on a missing date. *)
Definition between (s : list (option date)) (left right : date) : list bool :=
  map (fun x => match x with
                | Some d => date_leb left d && date_leb d right
                | None => false
                end) s.

(** [Series.isin(values)]. *)
Definition isin (s : list (option string)) (values : list (option string))
  : list bool :=
  map (fun x => existsb (same_label x) values) s.

(** [Series == scalar]: false when either side is missing. *)
Definition series_eq (s : list (option string)) (v : option string)
  : list bool :=
  map (fun x => match x, v with
                | Some a, Some b => String.eqb a b
                | _, _ => false
                end) s.

(** [category != "All"]. *)
Definition not_all (category : option string) : bool :=
  match category with
  | Some c => negb (String.eqb c "All")
  | None => true
  end.

Definition dt_date (F : MFrame) : list (option date) :=
  map (fun r => option_map ts_date (mDate r)) F.

Definition getitem_mask (F : MFrame) (m : list bool) : MFrame :=
  map fst (List.filter snd (combine F m)).

Definition mask (F : MFrame) (start end_ : date) (category : option string)
           (districts : list (option string)) : list bool :=
  let mask0 :=
    Filter.band (between (dt_date F) start end_)
                (isin (map mDistrict F) districts) in
  if not_all category
  then Filter.band mask0 (series_eq (map mCrime_Type F) category)
  else mask0.

Definition filtered (F : MFrame) (start end_ : date)
           (category : option string) (districts : list (option string))
  : MFrame :=
  getitem_mask F (mask F start end_ category districts).

(** The monthly bins of a date column, as [groupby_month_size] lays them
    out. *)
Definition month_bins (ts : list Timestamp) : list (Timestamp * Z) :=
  match series_min ts, series_max ts with
  | Some first, Some last =>
      let lo := month_ord first in
      let hi := month_ord last in
      map (fun mo =>
             (month_end mo,
              Z.of_nat (List.length
                          (List.filter (fun t => month_ord t =? mo) ts))))
          (zrange lo (Z.to_nat (hi - lo + 1)))
  | _, _ => []
  end.

(** [len(filtered)] counts every row; [nunique], [value_counts] and the
    two [groupby] leave out the rows whose key is missing. *)
Definition tot (filtered : MFrame) : Z := Z.of_nat (List.length filtered).
Definition ucat (filtered : MFrame) : Z :=
  nunique (dropna (map mCrime_Type filtered)).
Definition dud (filtered : MFrame) : Z :=
  nunique (dropna (map mDistrict filtered)).

Definition fig_ts (filtered : MFrame) : list (Timestamp * Z) :=
  month_bins (dropna (map mDate filtered)).
Definition fig_pie (filtered : MFrame) : list (string * Z) :=
  value_counts (dropna (map mCrime_Type filtered)).
Definition fig_bar (filtered : MFrame) : list (string * Z) :=
  groupby_size (dropna (map mDistrict filtered)).

Definition aggregate (filtered : MFrame) : AggregateResult :=
  {| total_count := tot filtered;
     distinct_category_count := ucat filtered;
     distinct_district_count := dud filtered;
     monthly_series := fig_ts filtered;
     category_breakdown := fig_pie filtered;
     district_breakdown := fig_bar filtered |}.

(** [df["Date"].min().date()] and [df["Date"].max().date()]: [min] and
    [max] skip the missing dates; [None] where no date is present. *)
Definition min_date (F : MFrame) : option date :=
  option_map ts_date (series_min (dropna (map mDate F))).

Definition max_date (F : MFrame) : option date :=
  option_map ts_date (series_max (dropna (map mDate F))).

(** The options of the category select box. *)
Definition category_options (F : MFrame) : list (option string) :=
  Some "All"%string :: unique (map mCrime_Type F).

(** The options of the district multi-select, which are also its default. *)
Definition district_options (F : MFrame) : list (option string) :=
  unique (map mDistrict F).

(** The values of the four widgets. *)
Record criteria : Type := mkcriteria {
  start : date;
  end_ : date;
  category : option string;
  districts : list (option string)
}.

(** The widgets as first rendered: the dates default to [min_date] and
    [max_date], the select box to its first option, the multi-select to
    all of its options. *)
Definition default_criteria (F : MFrame) : option criteria :=
  match min_date F, max_date F with
  | Some lo, Some hi =>
      Some (mkcriteria lo hi (hd None (category_options F))
                       (district_options F))
  | _, _ => None
  end.

(** [filtered] for the values of the widgets. *)
Definition apply_criteria (F : MFrame) (c : criteria) : MFrame :=
  filtered F (start c) (end_ c) (category c) (districts c).

(** The row-wise predicate the mask computes. *)
Definition kept (start end_ : date) (category : option string)
           (districts : list (option string)) (r : mrow) : bool :=
  (match mDate r with
   | Some t => date_leb start (ts_date t) && date_leb (ts_date t) end_
   | None => false
   end
   && existsb (same_label (mDistrict r)) districts)
  && (negb (not_all category)
      || match mCrime_Type r, category with
         | Some a, Some b => String.eqb a b
         | _, _ => false
         end).

(** Whether a cell is present. *)
Definition present (A : Type) (x : option A) : bool :=
  match x with Some _ => true | None => false end.

(** The number of rows whose cell of a column is present. *)
Definition count_present (A : Type) (g : mrow -> option A) (f : MFrame) : Z :=
  Z.of_nat (List.length (List.filter (fun r => present (g r)) f)).

(** Every date that is present is a calendar date with a time of day. *)
Definition valid_dates (F : MFrame) : Prop :=
  Forall (fun r => match mDate r with
                   | Some t => valid_ts t
                   | None => True
                   end) F.

End WithMissing.

(** A loaded frame with a row whose crime type is missing and a row whose
    date is missing. *)
Definition missing_frame : WithMissing.MFrame :=
  [WithMissing.mkmrow (Some (mkts (mkdate 2025 1 10) 0)) (Some "Theft"%string)
                      (Some (-178 # 10)%Q) (Some (31 # 1)%Q) (Some "Harare"%string);
   WithMissing.mkmrow (Some (mkts (mkdate 2025 2 3) 0)) None
                      (Some (-178 # 10)%Q) (Some (31 # 1)%Q) (Some "Harare"%string);
   WithMissing.mkmrow (Some (mkts (mkdate 2025 3 9) 0)) (Some "Theft"%string)
                      (Some (-178 # 10)%Q) (Some (31 # 1)%Q) (Some "Gweru"%string);
   WithMissing.mkmrow None (Some "Fraud"%string)
                      (Some (-178 # 10)%Q) (Some (31 # 1)%Q) (Some "Gweru"%string)].

(** The widgets of [missing_frame] as first rendered. *)
Definition missing_defaults : WithMissing.criteria :=
  WithMissing.mkcriteria (mkdate 2025 1 10) (mkdate 2025 3 9)
    (Some "All"%string) [Some "Harare"%string; Some "Gweru"%string].

(** [missing_frame] under the default filter. *)
Definition missing_filtered : WithMissing.MFrame :=
  WithMissing.apply_criteria missing_frame missing_defaults.

(** ** Vocabulary of the further statements *)

Section ReportVocabulary.
Import Report.

(** The temporary names in use are older than the next fresh one. *)
Definition temp_names_used (w : world) : Prop :=
  Forall (fun f => (f < next_temp w)%nat) (temp_files w).

(** Whether exporting a figure raises: at [write_image] or at [pdf.image]. *)
Definition figure_error (fig : figure) : option string :=
  match write_image fig with
  | Some e => Some e
  | None => embed_image fig
  end.

Definition written (fig : figure) : bool :=
  match write_image fig with None => true | Some _ => false end.

Fixpoint collect_errors (figs : list figure) : list string :=
  match figs with
  | [] => []
  | fig :: rest =>
      match figure_error fig with
      | Some e => e :: collect_errors rest
      | None => collect_errors rest
      end
  end.

End ReportVocabulary.

Section OrdinalVocabulary.
Import Datetime.

(** The month and the day of the [n]-th day of a year, counted from 0, as
    [_ord2ymd] finds them. *)
Definition month_day (n : Z) (leapyear : bool) : Z * Z :=
  let m := Z.shiftr (n + 50) 5 in
  let preceding := DAYS_BEFORE_MONTH m + (if (2 <? m) && leapyear then 1 else 0) in
  if n <? preceding then
    let m := m - 1 in
    let preceding :=
      preceding - (DAYS_IN_MONTH m + (if (m =? 2) && leapyear then 1 else 0)) in
    (m, n - preceding + 1)
  else (m, n - preceding + 1).

Definition month_day_check (leapyear : bool) (n : Z) : bool :=
  let (m, d) := month_day n leapyear in
  (1 <=? m) && (m <=? 12) && (1 <=? d)
  && (d <=? DAYS_IN_MONTH m + (if (m =? 2) && leapyear then 1 else 0))
  && (DAYS_BEFORE_MONTH m + (if (2 <? m) && leapyear then 1 else 0) + d =? n + 1).

(** The table of the days before a month, checked month by month. *)
Definition month_table_check (leapyear : bool) (m : Z) : bool :=
  let before k := DAYS_BEFORE_MONTH k + (if (2 <? k) && leapyear then 1 else 0) in
  let len k := DAYS_IN_MONTH k + (if (k =? 2) && leapyear then 1 else 0) in
  (0 <=? before m) && (1 <=? len m)
  && (before m + len m <=? 365 + (if leapyear then 1 else 0))
  && ((12 <=? m) || (before (m + 1) =? before m + len m)).

(** The strict order on dates. *)
Definition date_lt (a b : date) : Prop :=
  year a < year b \/
  (year a = year b /\
   (month a < month b \/ (month a = month b /\ day a < day b))).

(** The order on [datetime] values. *)
Definition dt_le (a b : datetime) : Prop :=
  date_lt (dt_date a) (dt_date b) \/
  (dt_date a = dt_date b /\ dt_seconds a <= dt_seconds b).

(** A [datetime] of the calendar (years from 1 on). *)
Definition valid_datetime (a : datetime) : Prop :=
  valid_date (dt_date a) /\ 1 <= year (dt_date a) /\
  0 <= dt_seconds a < 86400.

End OrdinalVocabulary.

(** ** Further example data *)

Section MoreExamples.
Import Csv Loader Report Generator.

(** The frame read from [default_file]. *)
Definition default_frame : Frame :=
  Eval vm_compute in
    match read_csv default_file with
    | Returned f => f
    | Raised _ => mkframe [] []
    end.

Definition loaded_session : session :=
  mksession [] [("crime_data.csv"%string, default_frame)].

Definition empty_fs : filesystem := fun _ => None.

(** Four figures: the second fails to be written, the third to be
    embedded. *)
Definition four_figures : list figure :=
  [mkfigure None None; mkfigure (Some "kaleido is missing"%string) None;
   mkfigure None (Some "not a PNG file"%string); mkfigure None None].

Definition some_world : world := mkworld [0; 1]%nat 2 [].

Definition some_metrics : metrics := mkmetrics 3 2 2.

Definition some_rng : RandomState :=
  mkrng (fun n => Z.of_nat n * 7919 + 13) 0.

End MoreExamples.

(** ** Facts about the calendar *)

Section CalendarFacts.

Lemma date_leb_le a b : date_leb a b = true <-> date_le a b.
Proof.
  unfold date_leb, date_cmp, date_le.
  destruct (Z.compare_spec (year a) (year b));
    destruct (Z.compare_spec (month a) (month b));
    destruct (Z.compare_spec (day a) (day b));
    split; intros; try discriminate; try reflexivity; try lia.
Qed.

Lemma ts_leb_le a b : ts_leb a b = true <-> ts_le a b.
Proof.
  unfold ts_leb, ts_cmp, date_cmp, ts_le, ts_year, ts_month.
  destruct (Z.compare_spec (year (ts_date a)) (year (ts_date b)));
    destruct (Z.compare_spec (month (ts_date a)) (month (ts_date b)));
    destruct (Z.compare_spec (day (ts_date a)) (day (ts_date b)));
    destruct (Z.compare_spec (ts_nanos a) (ts_nanos b));
    split; intros; try discriminate; try reflexivity; try lia.
Qed.

Lemma ts_le_refl a : ts_le a a.
Proof. unfold ts_le. lia. Qed.

Lemma ts_le_trans a b c : ts_le a b -> ts_le b c -> ts_le a c.
Proof. unfold ts_le. lia. Qed.

Lemma ts_le_total a b : ts_le a b \/ ts_le b a.
Proof. unfold ts_le. lia. Qed.

Lemma ts_max_ge_l a b : ts_le a (ts_max a b).
Proof.
  unfold ts_max. destruct (ts_leb a b) eqn:E.
  - apply ts_leb_le. exact E.
  - apply ts_le_refl.
Qed.

Lemma ts_max_ge_r a b : ts_le b (ts_max a b).
Proof.
  unfold ts_max. destruct (ts_leb a b) eqn:E.
  - apply ts_le_refl.
  - destruct (ts_le_total a b) as [H|H]; [|exact H].
    apply ts_leb_le in H. congruence.
Qed.

Lemma ts_min_le_l a b : ts_le (ts_min a b) a.
Proof.
  unfold ts_min. destruct (ts_leb a b) eqn:E.
  - apply ts_le_refl.
  - destruct (ts_le_total a b) as [H|H]; [|exact H].
    apply ts_leb_le in H. congruence.
Qed.

Lemma ts_min_le_r a b : ts_le (ts_min a b) b.
Proof.
  unfold ts_min. destruct (ts_leb a b) eqn:E.
  - apply ts_leb_le. exact E.
  - apply ts_le_refl.
Qed.

Lemma fold_ts_max_spec l : forall t,
  let m := fold_left ts_max l t in
  In m (t :: l) /\ forall x, In x (t :: l) -> ts_le x m.
Proof.
  induction l as [|a l IH]; intros t; simpl.
  - split; [left; reflexivity|]. intros x [<-|[]]. apply ts_le_refl.
  - destruct (IH (ts_max t a)) as [Hin Hle]. split.
    + destruct Hin as [Hin|Hin]; [|right; right; exact Hin].
      rewrite <- Hin. unfold ts_max. destruct (ts_leb t a); auto.
    + intros x [<-|[<-|Hx]].
      * eapply ts_le_trans; [apply ts_max_ge_l | apply Hle; left; reflexivity].
      * eapply ts_le_trans; [apply ts_max_ge_r | apply Hle; left; reflexivity].
      * apply Hle. right. exact Hx.
Qed.

Lemma fold_ts_min_spec l : forall t,
  let m := fold_left ts_min l t in
  In m (t :: l) /\ forall x, In x (t :: l) -> ts_le m x.
Proof.
  induction l as [|a l IH]; intros t; simpl.
  - split; [left; reflexivity|]. intros x [<-|[]]. apply ts_le_refl.
  - destruct (IH (ts_min t a)) as [Hin Hle]. split.
    + destruct Hin as [Hin|Hin]; [|right; right; exact Hin].
      rewrite <- Hin. unfold ts_min. destruct (ts_leb t a); auto.
    + intros x [<-|[<-|Hx]].
      * eapply ts_le_trans; [apply Hle; left; reflexivity | apply ts_min_le_l].
      * eapply ts_le_trans; [apply Hle; left; reflexivity | apply ts_min_le_r].
      * apply Hle. right. exact Hx.
Qed.

Lemma series_max_spec l m :
  series_max l = Some m -> In m l /\ forall x, In x l -> ts_le x m.
Proof.
  destruct l as [|t l]; simpl; [discriminate|].
  intros [= <-]. apply fold_ts_max_spec.
Qed.

Lemma series_min_spec l m :
  series_min l = Some m -> In m l /\ forall x, In x l -> ts_le m x.
Proof.
  destruct l as [|t l]; simpl; [discriminate|].
  intros [= <-]. apply fold_ts_min_spec.
Qed.

(** On valid months the timestamp order refines the order of months. *)
Lemma ts_le_month_index a b :
  1 <= ts_month a <= 12 -> 1 <= ts_month b <= 12 ->
  ts_le a b -> month_index a <= month_index b.
Proof. unfold ts_le, month_index. lia. Qed.

End CalendarFacts.

(** ** Facts about the filter *)

Section FilterFacts.
Import Filter.

Lemma band_map A (f g : A -> bool) (l : list A) :
  band (map f l) (map g l) = map (fun x => f x && g x) l.
Proof.
  unfold band. induction l as [|x l IH]; simpl; [reflexivity|].
  f_equal. exact IH.
Qed.

Lemma getitem_mask_map (f : row -> bool) (df : DataFrame) :
  getitem_mask df (map f df) = List.filter f df.
Proof.
  unfold getitem_mask. induction df as [|r df IH]; simpl; [reflexivity|].
  destruct (f r); simpl; rewrite IH; reflexivity.
Qed.

Lemma filtered_filter df start end_ category districts :
  filtered df start end_ category districts
  = List.filter (keep start end_ category districts) df.
Proof.
  unfold filtered, mask, between, isin, series_eq, dt_date.
  rewrite !map_map, band_map.
  destruct (String.eqb category "All") eqn:E; simpl.
  - rewrite getitem_mask_map. apply filter_ext. intros r.
    unfold keep. rewrite E. simpl. rewrite andb_true_r. reflexivity.
  - rewrite band_map, getitem_mask_map. apply filter_ext. intros r.
    unfold keep. rewrite E. reflexivity.
Qed.

Lemma isin_In (x : string) (l : list string) :
  existsb (String.eqb x) l = true <-> In x l.
Proof.
  rewrite existsb_exists. split.
  - intros [y [Hy E]]. apply String.eqb_eq in E. subst. exact Hy.
  - intros H. exists x. split; [exact H | apply String.eqb_refl].
Qed.

(** C1. A row is in the filtered frame iff it is a row of the frame, its
    date (time of day dropped) lies between the start and the end date,
    both included, its district is one of the selected districts, and the
    category is the sentinel "All" or equals the row's crime type. *)
Theorem filtered_iff df start end_ category districts (r : row) :
  In r (filtered df start end_ category districts) <->
  In r df /\
  date_le start (ts_date (Date r)) /\
  date_le (ts_date (Date r)) end_ /\
  In (District r) districts /\
  (category = "All"%string \/ Crime_Type r = category).
Proof.
  rewrite filtered_filter, filter_In. unfold keep.
  rewrite !andb_true_iff, orb_true_iff, !date_leb_le, isin_In,
    !String.eqb_eq.
  tauto.
Qed.

End FilterFacts.

(** ** Facts about the grouped summaries *)

Section CountingFacts.
Import Aggregate.

Lemma zsum_app l1 l2 : zsum (l1 ++ l2) = zsum l1 + zsum l2.
Proof. induction l1 as [|x l1 IH]; simpl; lia. Qed.

Lemma zsum_perm l1 l2 : Permutation l1 l2 -> zsum l1 = zsum l2.
Proof. induction 1; simpl; lia. Qed.

Lemma zsum_map_add A (f g : A -> Z) (l : list A) :
  zsum (map (fun x => f x + g x) l) = zsum (map f l) + zsum (map g l).
Proof. induction l as [|x l IH]; simpl; lia. Qed.

Lemma zsum_map_zero A (l : list A) : zsum (map (fun _ => 0) l) = 0.
Proof. induction l as [|x l IH]; simpl; lia. Qed.

Lemma insert_by_perm A (leb : A -> A -> bool) x l :
  Permutation (insert_by leb x l) (x :: l).
Proof.
  induction l as [|y l IH]; simpl; [apply Permutation_refl|].
  destruct (leb x y); [apply Permutation_refl|].
  eapply Permutation_trans; [apply perm_skip, IH | apply perm_swap].
Qed.

Lemma sort_by_perm A (leb : A -> A -> bool) l : Permutation (sort_by leb l) l.
Proof.
  induction l as [|x l IH]; simpl; [apply perm_nil|].
  eapply Permutation_trans; [apply insert_by_perm | apply perm_skip, IH].
Qed.

Lemma unique_In x s : In x (unique s) <-> In x s.
Proof.
  induction s as [|y s IH]; simpl; [tauto|].
  rewrite filter_In, IH, negb_true_iff.
  destruct (String.eqb_spec x y) as [->|Hne]; split; intros H; auto.
  - destruct H as [H|[H _]]; auto.
  - destruct H as [H|H]; [left; exact H | right; split; [exact H | reflexivity]].
Qed.

Lemma unique_NoDup s : NoDup (unique s).
Proof.
  induction s as [|y s IH]; simpl; [constructor|].
  constructor.
  - rewrite filter_In, String.eqb_refl. simpl. intros [_ H]. discriminate.
  - apply NoDup_filter. exact IH.
Qed.

(** Counting by key.  [test k a] decides whether [a] falls in the group
    of key [k]; every element has exactly one key. *)
Section ByKey.
Variables (A K : Type) (test : K -> A -> bool) (key : A -> K).
Hypothesis test_key : forall k a, test k a = true <-> k = key a.

Lemma zsum_indicator a U :
  NoDup U -> In (key a) U ->
  zsum (map (fun k => if test k a then 1 else 0) U) = 1.
Proof.
  induction 1 as [|k U Hk Hnd IH]; simpl; [tauto|].
  intros [->|Hin].
  - replace (test (key a) a) with true
      by (symmetry; apply test_key; reflexivity).
    assert (Hz : zsum (map (fun k => if test k a then 1 else 0) U) = 0).
    { clear IH Hnd. induction U as [|k' U IHU]; simpl; [reflexivity|].
      destruct (test k' a) eqn:E.
      - apply test_key in E. subst. exfalso. apply Hk. left. reflexivity.
      - rewrite IHU; [reflexivity|]. intros H. apply Hk. right. exact H. }
    lia.
  - destruct (test k a) eqn:E.
    + apply test_key in E. subst. contradiction.
    + rewrite (IH Hin). reflexivity.
Qed.

Lemma zsum_group_sizes (l : list A) (U : list K) :
  NoDup U -> (forall a, In a l -> In (key a) U) ->
  zsum (map (fun k => Z.of_nat (List.length (List.filter (test k) l))) U)
  = Z.of_nat (List.length l).
Proof.
  intros Hnd. induction l as [|a l IH]; intros Hall.
  - simpl. apply zsum_map_zero.
  - rewrite (map_ext _
      (fun k => (if test k a then 1 else 0)
                + Z.of_nat (List.length (List.filter (test k) l)))).
    + rewrite zsum_map_add, zsum_indicator, IH; simpl List.length; try lia;
        auto.
      * intros a' Ha'. apply Hall. right. exact Ha'.
      * apply Hall. left. reflexivity.
    + intros k. simpl. destruct (test k a); simpl List.length; lia.
Qed.
End ByKey.

Lemma zrange_In lo n k : In k (zrange lo n) <-> lo <= k < lo + Z.of_nat n.
Proof.
  unfold zrange. rewrite in_map_iff. split.
  - intros [i [<- Hi]]. apply in_seq in Hi. lia.
  - intros H. exists (Z.to_nat (k - lo)). split; [lia|].
    apply in_seq. lia.
Qed.

Lemma zrange_NoDup lo n : NoDup (zrange lo n).
Proof.
  unfold zrange. apply Finite.Injective_map_NoDup; [|apply seq_NoDup].
  intros i j H. lia.
Qed.

Lemma zrange_sorted lo n : StronglySorted Z.lt (zrange lo n).
Proof.
  unfold zrange. generalize 0%nat as s.
  induction n as [|n IH]; intros s; simpl; constructor.
  - apply IH.
  - apply Forall_forall. intros k Hk. apply in_map_iff in Hk.
    destruct Hk as [i [<- Hi]]. apply in_seq in Hi. lia.
Qed.

Lemma StronglySorted_map A B (R : A -> A -> Prop) (S : B -> B -> Prop)
      (f : A -> B) (l : list A) :
  (forall x y, R x y -> S (f x) (f y)) ->
  StronglySorted R l -> StronglySorted S (map f l).
Proof.
  intros Hf. induction 1 as [|x l Hl IH Hx]; simpl; constructor.
  - exact IH.
  - apply Forall_forall. intros y Hy. apply in_map_iff in Hy.
    destruct Hy as [z [<- Hz]]. apply Hf.
    rewrite Forall_forall in Hx. apply Hx. exact Hz.
Qed.

Lemma value_counts_sum s :
  zsum (map snd (value_counts s)) = Z.of_nat (List.length s).
Proof.
  unfold value_counts.
  rewrite (zsum_perm (Permutation_map snd (sort_by_perm _ _))).
  rewrite map_map. simpl.
  apply (@zsum_group_sizes string string String.eqb (fun x => x)).
  - intros k a. apply String.eqb_eq.
  - apply unique_NoDup.
  - intros a Ha. apply unique_In. exact Ha.
Qed.

Lemma groupby_size_sum s :
  zsum (map snd (groupby_size s)) = Z.of_nat (List.length s).
Proof.
  unfold groupby_size. rewrite map_map. simpl.
  apply (@zsum_group_sizes string string String.eqb (fun x => x)).
  - intros k a. apply String.eqb_eq.
  - eapply Permutation_NoDup; [apply Permutation_sym, sort_by_perm|].
    apply unique_NoDup.
  - intros a Ha. eapply Permutation_in; [apply Permutation_sym, sort_by_perm|].
    apply unique_In. exact Ha.
Qed.

End CountingFacts.

(** ** Facts about the monthly series *)

Section MonthlyFacts.
Import Filter Aggregate.

Lemma month_ord_index t : month_index t = month_ord t + 1.
Proof. unfold month_index, month_ord. lia. Qed.

Lemma month_end_key mo : month_key (month_end mo) = (mo / 12, mo mod 12 + 1).
Proof. reflexivity. Qed.

Lemma month_end_ord mo : month_ord (month_end mo) = mo.
Proof.
  unfold month_ord, month_end, ts_year, ts_month. simpl.
  pose proof (Z.div_mod mo 12). lia.
Qed.

Lemma month_end_lt a b :
  a < b -> month_key_lt (month_key (month_end a)) (month_key (month_end b)).
Proof.
  intros H. rewrite !month_end_key. unfold month_key_lt. simpl.
  pose proof (Z.div_mod a 12). pose proof (Z.div_mod b 12).
  pose proof (Z.mod_pos_bound a 12). pose proof (Z.mod_pos_bound b 12).
  lia.
Qed.

(** On a valid month the ordinal determines the key and conversely. *)
Lemma month_ord_key t y m :
  1 <= ts_month t <= 12 -> 1 <= m <= 12 ->
  (month_ord t = y * 12 + (m - 1) <-> month_key t = (y, m)).
Proof.
  unfold month_ord, month_key. intros Ht Hm. split.
  - intros H. f_equal; lia.
  - intros [= <- <-]. reflexivity.
Qed.

Lemma valid_frame_month df r :
  valid_frame df -> In r df -> 1 <= ts_month (Date r) <= 12.
Proof.
  unfold valid_frame. rewrite Forall_forall. intros H Hr.
  destruct (H r Hr) as [[Hm _] _]. exact Hm.
Qed.

Lemma ts_le_month_ord a b :
  1 <= ts_month a <= 12 -> 1 <= ts_month b <= 12 ->
  ts_le a b -> month_ord a <= month_ord b.
Proof. unfold ts_le, month_ord. lia. Qed.

(** The bins of a non-empty frame: the first and the last row month. *)
Lemma groupby_month_size_bins df :
  df <> [] ->
  exists rlo rhi,
    In rlo df /\ In rhi df /\
    (forall r, In r df -> ts_le (Date rlo) (Date r) /\ ts_le (Date r) (Date rhi)) /\
    groupby_month_size df =
      map (fun mo => (month_end mo, count_month mo df))
          (zrange (month_ord (Date rlo))
             (Z.to_nat (month_ord (Date rhi) - month_ord (Date rlo) + 1))).
Proof.
  intros Hne. unfold groupby_month_size.
  destruct (series_min (map Date df)) as [first|] eqn:Emin;
    [|destruct df; [congruence | discriminate]].
  destruct (series_max (map Date df)) as [last|] eqn:Emax;
    [|destruct df; [congruence | discriminate]].
  apply series_min_spec in Emin. destruct Emin as [Hin1 Hmin].
  apply series_max_spec in Emax. destruct Emax as [Hin2 Hmax].
  apply in_map_iff in Hin1. destruct Hin1 as [rlo [<- Hlo]].
  apply in_map_iff in Hin2. destruct Hin2 as [rhi [<- Hhi]].
  exists rlo, rhi. repeat split; auto.
  - apply Hmin. apply in_map. exact H.
  - apply Hmax. apply in_map. exact H.
Qed.

Lemma groupby_month_size_sum df :
  valid_frame df ->
  zsum (map snd (groupby_month_size df)) = Z.of_nat (List.length df).
Proof.
  intros Hv. destruct df as [|r0 df0] eqn:Edf; [reflexivity|].
  rewrite <- Edf in *.
  assert (Hne : df <> []) by (rewrite Edf; discriminate).
  destruct (groupby_month_size_bins Hne) as [rlo [rhi [Hlo [Hhi [Hb ->]]]]].
  rewrite map_map. simpl. unfold count_month.
  apply (@zsum_group_sizes row Z (fun mo r => month_ord (Date r) =? mo)
           (fun r => month_ord (Date r))).
  - intros k a. rewrite Z.eqb_eq. split; congruence.
  - apply zrange_NoDup.
  - intros a Ha. apply zrange_In.
    destruct (Hb a Ha) as [H1 H2].
    apply ts_le_month_ord in H1; try (eapply valid_frame_month; eassumption).
    apply ts_le_month_ord in H2; try (eapply valid_frame_month; eassumption).
    lia.
Qed.

Lemma count_month_rows_in_month mo df :
  valid_frame df ->
  count_month mo df = rows_in_month (month_key (month_end mo)) df.
Proof.
  intros Hv. unfold count_month, rows_in_month. do 2 f_equal.
  apply filter_ext_in. intros r Hr.
  pose proof (@valid_frame_month df r Hv Hr) as Hm.
  rewrite month_end_key.
  pose proof (Z.mod_pos_bound mo 12 ltac:(lia)) as Hb.
  pose proof (Z.div_mod mo 12 ltac:(lia)) as Hd.
  destruct (month_key_eq_dec _ _) as [E|E].
  - apply Z.eqb_eq. apply month_ord_key in E; lia.
  - apply Z.eqb_neq. intros H. apply E. apply month_ord_key; lia.
Qed.

End MonthlyFacts.

(** ** The aggregator: statements *)

Section AggregateTheorems.
Import Filter Aggregate.

Lemma fig_ts_keys_sorted df :
  StronglySorted
    (fun a b => month_key_lt (month_key (fst a)) (month_key (fst b)))
    (groupby_month_size df).
Proof.
  unfold groupby_month_size.
  destruct (series_min (map Date df)); [|constructor].
  destruct (series_max (map Date df)); [|constructor].
  eapply StronglySorted_map; [|apply zrange_sorted].
  intros a b Hab. simpl. apply month_end_lt. exact Hab.
Qed.

Lemma sorted_keys_NoDup (l : list (Timestamp * Z)) :
  StronglySorted
    (fun a b => month_key_lt (month_key (fst a)) (month_key (fst b))) l ->
  NoDup (map (fun e => month_key (fst e)) l).
Proof.
  induction 1 as [|e l Hl IH He]; simpl; constructor; [|exact IH].
  intros Hin. apply in_map_iff in Hin. destruct Hin as [e' [Ek He']].
  rewrite Forall_forall in He. specialize (He e' He').
  rewrite Ek in He. unfold month_key_lt in He. lia.
Qed.

(** C7. The month keys of the monthly series are strictly increasing along
    the series, so the series is in chronological order and no calendar
    month occurs twice. *)
Theorem fig_ts_strictly_increasing (filtered : DataFrame) :
  StronglySorted
    (fun a b => month_key_lt (month_key (fst a)) (month_key (fst b)))
    (fig_ts filtered)
  /\ NoDup (map (fun e => month_key (fst e)) (fig_ts filtered)).
Proof.
  split; [|apply sorted_keys_NoDup]; apply fig_ts_keys_sorted.
Qed.

(** C6. When the filter selects no row, the aggregate is defined: the three
    metrics are 0 and the monthly series and both breakdowns are empty. *)
Theorem aggregate_empty df start end_ category districts :
  filtered df start end_ category districts = [] ->
  aggregate (filtered df start end_ category districts)
  = mkagg 0 0 0 [] [] [].
Proof. intros ->. reflexivity. Qed.

(** C2, as amended.  The months of the series are exactly the calendar
    months from the earliest to the latest month of a row, and the count
    of an entry is the number of rows of that month: a month of that span
    without rows is present with count 0. *)
Theorem fig_ts_zero_filled (filtered : DataFrame) :
  valid_frame filtered ->
  (forall y m, 1 <= m <= 12 ->
     (In (y, m) (map (fun e => month_key (fst e)) (fig_ts filtered)) <->
      exists r1 r2,
        In r1 filtered /\ In r2 filtered /\
        month_key_le (month_key (Date r1)) (y, m) /\
        month_key_le (y, m) (month_key (Date r2)))) /\
  (forall e, In e (fig_ts filtered) ->
     snd e = rows_in_month (month_key (fst e)) filtered).
Proof.
  intros Hv. unfold fig_ts. destruct filtered as [|r0 df0] eqn:Edf.
  { split.
    - intros y m _. simpl. split; [tauto|]. intros [r1 [_ [[] _]]].
    - intros e []. }
  assert (Hne : filtered <> []) by (rewrite Edf; discriminate).
  rewrite <- Edf in *. clear Edf r0 df0.
  destruct (groupby_month_size_bins Hne) as [rlo [rhi [Hlo [Hhi [Hb ->]]]]].
  pose proof (@valid_frame_month filtered rlo Hv Hlo) as Vlo.
  pose proof (@valid_frame_month filtered rhi Hv Hhi) as Vhi.
  split.
  - intros y m Hm. rewrite map_map. simpl. rewrite in_map_iff. split.
    + intros [mo [Ek Hmo]]. apply zrange_In in Hmo.
      rewrite month_end_key in Ek. injection Ek as Ey Em.
      pose proof (Z.div_mod mo 12 ltac:(lia)).
      exists rlo, rhi. repeat split; auto.
      * unfold month_key_le, month_key, month_ord in *. simpl. lia.
      * unfold month_key_le, month_key, month_ord in *. simpl. lia.
    + intros [r1 [r2 [H1 [H2 [L1 L2]]]]].
      exists (y * 12 + (m - 1)). split.
      * rewrite month_end_key.
        pose proof (Z.div_mod (y * 12 + (m - 1)) 12 ltac:(lia)).
        pose proof (Z.mod_pos_bound (y * 12 + (m - 1)) 12 ltac:(lia)).
        f_equal; lia.
      * apply zrange_In.
        destruct (Hb r1 H1) as [A1 _]. destruct (Hb r2 H2) as [_ A2].
        pose proof (@valid_frame_month filtered r1 Hv H1) as V1.
        pose proof (@valid_frame_month filtered r2 Hv H2) as V2.
        apply ts_le_month_ord in A1; auto.
        apply ts_le_month_ord in A2; auto.
        unfold month_key_le, month_key, month_ord in *. simpl in *. lia.
  - intros e He. apply in_map_iff in He. destruct He as [mo [<- _]].
    simpl. apply count_month_rows_in_month. exact Hv.
Qed.

End AggregateTheorems.

(** ** Facts about the least-squares fit *)

Section RegressionFacts.
Import Forecast.
Open Scope Q_scope.

Variables (A : Type) (fx fy : A -> Q).











End RegressionFacts.

(** ** The forecaster: statements *)

Section ForecastTheorems.
Import Filter Aggregate Forecast.

Lemma getitem_district df d :
  getitem_mask df (series_eq (map District df) d) = rows_of_district df d.
Proof.
  unfold series_eq, rows_of_district. rewrite map_map.
  apply getitem_mask_map.
Qed.

Lemma hist_rows df d :
  hist df d = groupby_month_size (rows_of_district df d).
Proof. unfold hist. rewrite getitem_district. reflexivity. Qed.

Lemma valid_frame_district df d :
  valid_frame df -> valid_frame (rows_of_district df d).
Proof.
  unfold valid_frame, rows_of_district. rewrite !Forall_forall.
  intros H r Hr. apply filter_In in Hr. apply H. tauto.
Qed.

Lemma groupby_month_size_shape df :
  exists lo n,
    groupby_month_size df
    = map (fun mo => (month_end mo, count_month mo df)) (zrange lo n).
Proof.
  unfold groupby_month_size.
  destruct (series_min (map Date df)) as [first|]; [|exists 0, 0%nat; reflexivity].
  destruct (series_max (map Date df)) as [last|]; [|exists 0, 0%nat; reflexivity].
  eexists _, _. reflexivity.
Qed.

Lemma hist_nonempty_frame df d :
  hist df d <> [] -> exists last, series_max (map Date df) = Some last.
Proof.
  destruct df as [|r df]; [intros H; exfalso; apply H; reflexivity|].
  intros _. simpl. eexists. reflexivity.
Qed.



(** C3. Whenever a prediction is produced, it is the fitted line of the
    district evaluated at [year*12 + month + 1] of the largest date of the
    whole frame; no row of the frame, of whatever district, has a larger
    month index than that date. *)
Theorem forecast_anchor (flag : bool) (df : DataFrame) (pdist : string)
        (p : Q) :
  valid_frame df ->
  forecast_block flag df pdist = Some p ->
  exists last,
    series_max (map Date df) = Some last /\
    (exists r, In r df /\ Date r = last) /\
    (forall r, In r df -> ts_le (Date r) last) /\
    (forall r, In r df -> month_index (Date r) <= month_index last) /\
    p = predict
          (fit (map (fun e => inject_Z (month_index (fst e))) (hist df pdist))
               (map (fun e => inject_Z (snd e)) (hist df pdist)))
          (inject_Z (ts_year last * 12 + ts_month last + 1)).
Proof.
  intros Hv. destruct flag; [|discriminate]. simpl. unfold forecast.
  destruct (1 <? List.length (hist df pdist))%nat; [|discriminate].
  destruct (series_max (map Date df)) as [last|] eqn:Emax; [|discriminate].
  intros [= <-]. exists last.
  apply series_max_spec in Emax. destruct Emax as [Hin Hmax].
  apply in_map_iff in Hin. destruct Hin as [rl [El Hrl]].
  split; [reflexivity|]. split; [exists rl; auto|].
  split; [|split].
  - intros r Hr. apply Hmax. apply in_map. exact Hr.
  - intros r Hr. apply ts_le_month_index.
    + eapply valid_frame_month; eassumption.
    + rewrite <- El. eapply valid_frame_month; eassumption.
    + apply Hmax. apply in_map. exact Hr.
  - reflexivity.
Qed.


End ForecastTheorems.

(** ** The loader: statements *)

Section LoaderTheorems.
Import Csv Loader.

Lemma load_data_sidebar fs path s :
  sidebar (snd (load_data fs path s)) = sidebar s.
Proof.
  unfold load_data. destruct (cache_lookup path (cache s)); [reflexivity|].
  destruct (fs path) as [text|]; [|reflexivity].
  destruct (read_csv text); reflexivity.
Qed.

(** C10. When reading the uploaded file raises, [upload_csv] reports the
    error in the sidebar and returns [None]; the session then loads the
    default path with the same result and the same cache as when no file
    was uploaded, the reported error being the only difference. *)
Theorem upload_failure_falls_back (fs : filesystem) (text : string)
        (e : exn) (s : session) :
  read_csv text = Raised e ->
  upload_csv (Some text) s
    = (None, mksession (sidebar s ++ [error e]) (cache s)) /\
  fst (load_frame fs (Some text) s) = fst (load_frame fs None s) /\
  fst (load_frame fs None s) = fst (load_data fs "crime_data.csv" s) /\
  cache (snd (load_frame fs (Some text) s))
    = cache (snd (load_frame fs None s)) /\
  sidebar (snd (load_frame fs (Some text) s))
    = sidebar (snd (load_frame fs None s)) ++ [error e].
Proof.
  intros Hraise. unfold load_frame, upload_csv. rewrite Hraise.
  split; [reflexivity|].
  rewrite !load_data_sidebar. unfold load_data. simpl.
  destruct (cache_lookup "crime_data.csv" (cache s)); [auto|].
  destruct (fs "crime_data.csv"%string) as [deflt|]; [|auto].
  destruct (read_csv deflt); auto.
Qed.

End LoaderTheorems.

(** ** Facts about CSV text *)

Section TextFacts.
Import Text Csv.

Lemma all_chars_app P s t :
  all_chars P (s ++ t) = all_chars P s && all_chars P t.
Proof.
  induction s as [|c s IH]; simpl; [reflexivity|].
  rewrite IH, andb_assoc. reflexivity.
Qed.

Lemma all_chars_cons P c s :
  all_chars P (String c s) = P c && all_chars P s.
Proof. reflexivity. Qed.

Lemma all_chars_impl (P P' : ascii -> bool) s :
  (forall c, P c = true -> P' c = true) ->
  all_chars P s = true -> all_chars P' s = true.
Proof.
  intros HP. induction s as [|c s IH]; simpl; [reflexivity|].
  rewrite !andb_true_iff. intros [Hc Hs]. auto.
Qed.

Lemma split_on_free sep s : free_of sep s = true -> split_on sep s = [s].
Proof.
  unfold free_of. induction s as [|c s IH]; simpl; [reflexivity|].
  rewrite andb_true_iff, negb_true_iff. intros [Hc Hs].
  rewrite Hc, (IH Hs). reflexivity.
Qed.

Lemma split_on_app sep s rest :
  free_of sep s = true ->
  split_on sep (s ++ String sep rest) = s :: split_on sep rest.
Proof.
  unfold free_of. induction s as [|c s IH]; simpl.
  - intros _. rewrite Ascii.eqb_refl. reflexivity.
  - rewrite andb_true_iff, negb_true_iff. intros [Hc Hs].
    rewrite Hc, (IH Hs). reflexivity.
Qed.

Lemma split_join sep (fs : list string) :
  fs <> [] -> Forall (fun f => free_of sep f = true) fs ->
  split_on sep (join sep fs) = fs.
Proof.
  induction fs as [|f fs IH]; [congruence|].
  intros _ Hall. inversion Hall as [|? ? Hf Hfs]; subst.
  destruct fs as [|f2 fs].
  - simpl. apply split_on_free. exact Hf.
  - change (join sep (f :: f2 :: fs))
      with (f ++ String sep (join sep (f2 :: fs)))%string.
    rewrite split_on_app by exact Hf.
    rewrite IH; [reflexivity | discriminate | exact Hfs].
Qed.

Lemma free_of_join sep nl (fs : list string) :
  Ascii.eqb sep nl = false ->
  Forall (fun f => free_of nl f = true) fs ->
  free_of nl (join sep fs) = true.
Proof.
  intros Hsep. induction fs as [|f fs IH]; [reflexivity|].
  intros Hall. inversion Hall as [|? ? Hf Hfs]; subst.
  destruct fs as [|f2 fs]; [exact Hf|].
  change (join sep (f :: f2 :: fs))
    with (f ++ String sep (join sep (f2 :: fs)))%string.
  specialize (IH Hfs). unfold free_of in *.
  rewrite all_chars_app, all_chars_cons, Hf, Hsep, IH. reflexivity.
Qed.

Lemma join_nonempty sep (fs : list string) :
  is_empty (hd EmptyString fs) = false -> is_empty (join sep fs) = false.
Proof.
  destruct fs as [|f fs]; simpl; [discriminate|].
  destruct f; [discriminate|]. intros _. destruct fs; reflexivity.
Qed.

Lemma plain_row_line width r :
  plain_row width r ->
  free_of newline (join comma r) = true /\
  is_empty (join comma r) = false /\
  (width <> O -> split_on comma (join comma r) = r).
Proof.
  intros [Hlen [Hne Hall]]. repeat split.
  - apply free_of_join; [reflexivity|].
    eapply Forall_impl; [|exact Hall]. simpl. tauto.
  - apply join_nonempty. exact Hne.
  - intros Hw. apply split_join.
    + intros ->. simpl in Hlen. congruence.
    + eapply Forall_impl; [|exact Hall]. simpl. tauto.
Qed.

Lemma lines_of_rows width (rows : list (list string)) :
  Forall (plain_row width) rows ->
  List.filter (fun l => negb (is_empty l))
    (split_on newline
       (fold_right (fun r rest => join comma r ++ String newline rest)%string
                   EmptyString rows))
  = map (join comma) rows.
Proof.
  induction 1 as [|r rows Hr Hrows IH]; simpl; [reflexivity|].
  destruct (plain_row_line Hr) as [Hnl [Hne _]].
  rewrite split_on_app by exact Hnl. simpl.
  rewrite Hne. simpl. rewrite IH. reflexivity.
Qed.

Lemma tokenize_rows width lineno (rows : list (list string)) :
  width <> O -> Forall (plain_row width) rows ->
  tokenize width lineno (map (join comma) rows) = Returned rows.
Proof.
  intros Hw Hall. revert lineno.
  induction Hall as [|r rows Hr Hrows IH]; intros lineno; simpl;
    [reflexivity|].
  destruct (plain_row_line Hr) as [_ [_ Hsplit]].
  rewrite (Hsplit Hw). destruct Hr as [Hlen _].
  rewrite Hlen, Nat.ltb_irrefl, IH, Nat.sub_diag. simpl.
  rewrite app_nil_r. reflexivity.
Qed.

(** Reading back what [to_csv] wrote. *)
Lemma read_csv_to_csv cols rows i :
  plain_row (List.length cols) cols ->
  index_of "Date" cols = Some i ->
  Forall (plain_row (List.length cols)) rows ->
  read_csv (to_csv cols rows) = Returned (mkframe cols (convert_dates i rows)).
Proof.
  intros Hcols Hi Hrows. unfold read_csv, to_csv.
  destruct (plain_row_line Hcols) as [Hnl [Hne Hsplit]].
  rewrite split_on_app by exact Hnl. simpl List.filter.
  rewrite Hne. simpl negb. cbv iota.
  rewrite (lines_of_rows Hrows).
  assert (Hw : List.length cols <> O).
  { destruct cols; [discriminate Hi | discriminate]. }
  rewrite (Hsplit Hw), Hi, (tokenize_rows 2 Hw Hrows). reflexivity.
Qed.

End TextFacts.

(** ** Facts about the generator *)

Section GeneratorFacts.
Import Text Datetime Csv Generator.

Lemma digit_of_is_digit n : is_digit (digit_of (n mod 10)) = true.
Proof.
  pose proof (Z.mod_pos_bound n 10 ltac:(lia)) as Hb.
  assert (H : n mod 10 = 0 \/ n mod 10 = 1 \/ n mod 10 = 2 \/ n mod 10 = 3 \/
              n mod 10 = 4 \/ n mod 10 = 5 \/ n mod 10 = 6 \/ n mod 10 = 7 \/
              n mod 10 = 8 \/ n mod 10 = 9) by lia.
  repeat (destruct H as [->|H]; [reflexivity|]). rewrite H. reflexivity.
Qed.

Lemma zfill_digits w : forall n acc,
  all_chars is_digit acc = true -> all_chars is_digit (zfill w n acc) = true.
Proof.
  induction w as [|w IH]; intros n acc Hacc; simpl; [exact Hacc|].
  apply IH. rewrite all_chars_cons, digit_of_is_digit, Hacc. reflexivity.
Qed.

Lemma digits_fuel_digits fuel : forall n acc,
  all_chars is_digit acc = true ->
  all_chars is_digit (digits_fuel fuel n acc) = true.
Proof.
  induction fuel as [|fuel IH]; intros n acc Hacc; simpl; [exact Hacc|].
  assert (H : all_chars is_digit (String (digit_of (n mod 10)) acc) = true).
  { rewrite all_chars_cons, digit_of_is_digit, Hacc. reflexivity. }
  destruct (n / 10 =? 0); [exact H | apply IH; exact H].
Qed.

Lemma rstrip_zeros_digits s :
  all_chars is_digit s = true -> all_chars is_digit (rstrip_zeros s) = true.
Proof.
  induction s as [|c s IH]; simpl; [reflexivity|].
  rewrite andb_true_iff. intros [Hc Hs]. specialize (IH Hs).
  destruct (rstrip_zeros s) as [|c' t].
  - destruct (Ascii.eqb c "0"); [reflexivity|].
    rewrite all_chars_cons, Hc. reflexivity.
  - rewrite all_chars_cons, Hc, IH. reflexivity.
Qed.

Lemma digits_float_chars s :
  all_chars is_digit s = true -> all_chars is_float_char s = true.
Proof.
  apply all_chars_impl. intros c Hc. unfold is_float_char. rewrite Hc.
  reflexivity.
Qed.

Lemma repr_micro_chars z : all_chars is_float_char (repr_micro z) = true.
Proof.
  unfold repr_micro. rewrite !all_chars_app.
  rewrite !andb_true_iff.
  split; [|split; [|split; [reflexivity|]]].
  - destruct (z <? 0); reflexivity.
  - apply digits_float_chars. apply digits_fuel_digits. reflexivity.
  - destruct (rstrip_zeros (zfill 6 (Z.abs z mod 1000000) "")) as [|c t] eqn:E;
      [reflexivity|].
    simpl is_empty. cbv iota. rewrite <- E.
    apply digits_float_chars, rstrip_zeros_digits, zfill_digits. reflexivity.
Qed.

Lemma float_chars_free sep s :
  is_float_char sep = false ->
  all_chars is_float_char s = true -> free_of sep s = true.
Proof.
  intros Hsep. apply all_chars_impl. intros c Hc.
  destruct (Ascii.eqb_spec c sep) as [->|]; [congruence | reflexivity].
Qed.

(** *** Rounding and the bounding box *)

Lemma rint_bounds (A B : Z) (q : Q) :
  (inject_Z A <= q <= inject_Z B)%Q -> A <= rint q <= B.
Proof.
  intros [HA HB]. unfold rint.
  pose proof (Qfloor_le q) as Hf1. pose proof (Qlt_floor q) as Hf2.
  set (f := Qfloor q) in *.
  assert (HAf : A <= f).
  { assert (H : (inject_Z A < inject_Z (f + 1))%Q) by lra.
    rewrite <- Zlt_Qlt in H. lia. }
  assert (Hup : (inject_Z f < q)%Q -> f + 1 <= B).
  { intros H. assert (H' : (inject_Z f < inject_Z B)%Q) by lra.
    rewrite <- Zlt_Qlt in H'. lia. }
  assert (HfB : f <= B).
  { assert (H : (inject_Z f <= inject_Z B)%Q) by lra.
    rewrite <- Zle_Qle in H. exact H. }
  destruct (Qcompare (q - inject_Z f) (1 # 2)) eqn:E.
  - apply Qeq_alt in E. destruct (Z.even f); [lia|].
    split; [lia|]. apply Hup. lra.
  - lia.
  - apply Qgt_alt in E. split; [lia|]. apply Hup. lra.
Qed.

Lemma round6_box (lo hi : Q) (A B : Z) (x : Q) :
  (lo * (1000000 # 1) == inject_Z A)%Q ->
  (hi * (1000000 # 1) == inject_Z B)%Q ->
  (lo <= x <= hi)%Q -> (lo <= round6 x <= hi)%Q.
Proof.
  intros HA HB [Hlo Hhi]. unfold round6.
  change (inject_Z 1000000) with (1000000 # 1)%Q.
  destruct (@rint_bounds A B (x * (1000000 # 1))%Q) as [H1 H2]; [lra|].
  rewrite Zle_Qle in H1, H2.
  set (v := inject_Z (rint (x * (1000000 # 1)))) in *.
  split.
  - apply Qle_shift_div_l; lra.
  - apply Qle_shift_div_r; lra.
Qed.

Lemma random_sample_unit g :
  (0 <= fst (random_sample g) < 1)%Q.
Proof.
  unfold random_sample, next_raw. cbn [fst].
  pose proof (Z.mod_pos_bound (tape g (pos g)) 9007199254740992 ltac:(lia)).
  unfold Qle, Qlt. cbn [Qnum Qden]. lia.
Qed.

Lemma uniform_bounds (low high : Q) g :
  (low <= high)%Q -> (low <= fst (uniform low high g) <= high)%Q.
Proof.
  intros Hlh. unfold uniform.
  pose proof (random_sample_unit g) as Hu.
  destruct (random_sample g) as [u g']. cbn [fst] in *.
  assert (H0 : (0 <= (high - low) * u)%Q)
    by (apply Qmult_le_0_compat; lra).
  assert (H1 : (0 <= (high - low) * (1 - u))%Q)
    by (apply Qmult_le_0_compat; lra).
  split; [lra|]. 
  assert ((high - low) * (1 - u) == (high - low) - (high - low) * u)%Q by ring.
  lra.
Qed.

(** *** The dates of the configured range *)

Lemma ts_eqb_eq a b : ts_eqb a b = true -> a = b.
Proof.
  unfold ts_eqb, ts_year, ts_month. rewrite !andb_true_iff, !Z.eqb_eq.
  destruct a as [[ya ma da] na], b as [[yb mb db] nb]. simpl.
  intros [[[-> ->] ->] ->]. reflexivity.
Qed.

Lemma date_check_range :
  forallb (fun k => date_text_check (dt_date (add_days START_DATE k))
                      (strftime_ymd (add_days START_DATE k)))
          (Aggregate.zrange 0 140) = true.
Proof. vm_compute. reflexivity. Qed.

Lemma date_check_ok k :
  0 <= k < 140 ->
  date_text_check (dt_date (add_days START_DATE k))
                  (strftime_ymd (add_days START_DATE k)) = true.
Proof.
  intros Hk. pose proof date_check_range as H.
  rewrite forallb_forall in H.
  apply (H k). apply zrange_In. lia.
Qed.

Lemma labels_plain :
  forallb (fun s => free_of comma s && free_of newline s)
          (CRIME_TYPES ++ DISTRICTS) = true.
Proof. vm_compute. reflexivity. Qed.

Lemma label_plain s :
  In s CRIME_TYPES \/ In s DISTRICTS ->
  free_of comma s = true /\ free_of newline s = true.
Proof.
  intros H. pose proof labels_plain as Hall.
  rewrite forallb_forall in Hall. apply andb_true_iff. apply Hall.
  apply in_or_app. exact H.
Qed.

(** *** One record *)

Lemma randint_range low high g :
  low < high -> low <= fst (randint low high g) < high.
Proof.
  intros H. unfold randint, next_raw. cbn [fst].
  pose proof (Z.mod_pos_bound (tape g (pos g)) (high - low) ltac:(lia)).
  lia.
Qed.

Lemma random_date_offset g :
  exists k, 0 <= k < 140 /\
    fst (random_date START_DATE END_DATE g) = add_days START_DATE k.
Proof.
  unfold random_date.
  change (td_days (sub END_DATE START_DATE) + 1) with 140.
  pose proof (@randint_range 0 140 g ltac:(lia)) as Hk.
  destruct (randint 0 140 g) as [k g']. cbn [fst] in *.
  exists k. split; [exact Hk | reflexivity].
Qed.

Lemma choice_In (a : list string) g : a <> [] -> In (fst (choice a g)) a.
Proof.
  intros Ha. unfold choice.
  assert (Hlen : 0 < Z.of_nat (List.length a)).
  { destruct a; [congruence | simpl List.length; lia]. }
  pose proof (@randint_range 0 (Z.of_nat (List.length a)) g Hlen) as Hi.
  destruct (randint 0 (Z.of_nat (List.length a)) g) as [i g'].
  cbn [fst] in *. apply nth_In. lia.
Qed.

Lemma gen_record_in_config g : in_config (fst (gen_record g)).
Proof.
  unfold gen_record.
  destruct (random_date_offset g) as [k [Hk Ek]].
  destruct (random_date START_DATE END_DATE g) as [d g1]. cbn [fst] in Ek.
  pose proof (@choice_In CRIME_TYPES g1 ltac:(discriminate)) as Hc.
  destruct (choice CRIME_TYPES g1) as [crime g2]. cbn [fst] in Hc.
  pose proof (@choice_In DISTRICTS g2 ltac:(discriminate)) as Hd.
  destruct (choice DISTRICTS g2) as [district g3]. cbn [fst] in Hd.
  pose proof (@uniform_bounds LAT_MIN LAT_MAX g3 ltac:(discriminate)) as Hu1.
  destruct (uniform LAT_MIN LAT_MAX g3) as [u1 g4]. cbn [fst] in Hu1.
  pose proof (@uniform_bounds LON_MIN LON_MAX g4 ltac:(discriminate)) as Hu2.
  destruct (uniform LON_MIN LON_MAX g4) as [u2 g5]. cbn [fst] in Hu2.
  unfold in_config. cbn [fst r_date r_crime r_district r_lat r_lon].
  split; [exists k; split; [exact Hk | rewrite Ek; reflexivity]|].
  split; [exact Hc|]. split; [exact Hd|]. split.
  - apply (@round6_box LAT_MIN LAT_MAX (-22000000) (-15000000));
      [reflexivity | reflexivity | exact Hu1].
  - apply (@round6_box LON_MIN LON_MAX 25000000 34000000);
      [reflexivity | reflexivity | exact Hu2].
Qed.

(** *** The loop *)

Lemma gen_loop_in_config n : forall g acc,
  Forall in_config acc ->
  Forall in_config (fst (gen_loop n g acc)) /\
  List.length (fst (gen_loop n g acc)) = (List.length acc + n)%nat.
Proof.
  induction n as [|n IH]; intros g acc Hacc; cbn [gen_loop].
  - cbn [fst]. split; [exact Hacc | lia].
  - pose proof (gen_record_in_config g) as Hr.
    destruct (gen_record g) as [r g']. cbn [fst] in Hr.
    destruct (IH g' (acc ++ [r])) as [H1 H2].
    + apply Forall_app. split; [exact Hacc | constructor; [exact Hr | constructor]].
    + split; [exact H1|]. rewrite H2, length_app. simpl List.length. lia.
Qed.

Lemma records_in_config g :
  Forall in_config (records g) /\ List.length (records g) = NUM_RECORDS.
Proof.
  unfold records. destruct (@gen_loop_in_config NUM_RECORDS g [] (Forall_nil _)) as [H1 H2].
  split; [exact H1 | exact H2].
Qed.

(** *** The written file *)

Lemma repr_float_plain q :
  free_of comma (repr_float q) = true /\ free_of newline (repr_float q) = true.
Proof.
  unfold repr_float. split;
    (apply float_chars_free; [reflexivity | apply repr_micro_chars]).
Qed.

Lemma add_days_seconds a k : dt_seconds (add_days a k) = dt_seconds a.
Proof. reflexivity. Qed.

Lemma add_days_midnight k :
  add_days START_DATE k = mkdatetime (dt_date (add_days START_DATE k)) 0.
Proof.
  generalize (add_days_seconds START_DATE k).
  destruct (add_days START_DATE k) as [d secs]. cbn [dt_seconds dt_date].
  intros ->. reflexivity.
Qed.

Lemma date_text_check_facts d s :
  date_text_check d s = true ->
  date_le (dt_date START_DATE) d /\ date_le d (dt_date END_DATE) /\
  parse_date s = Some (mkts d 0) /\
  free_of comma s = true /\ free_of newline s = true /\
  is_empty s = false.
Proof.
  unfold date_text_check.
  rewrite !andb_true_iff, negb_true_iff, !date_leb_le.
  intros [[[[[H1 H2] H3] H4] H5] H6].
  split; [exact H5|]. split; [exact H6|].
  split; [|split; [exact H1|split; [exact H2|exact H3]]].
  destruct (parse_date s) as [t|]; [|discriminate].
  apply ts_eqb_eq in H4. rewrite H4. reflexivity.
Qed.

Lemma date_field_facts r :
  in_config r ->
  exists d,
    r_date r = strftime_ymd (mkdatetime d 0) /\
    date_le (dt_date START_DATE) d /\ date_le d (dt_date END_DATE) /\
    parse_date (r_date r) = Some (mkts d 0) /\
    free_of comma (r_date r) = true /\ free_of newline (r_date r) = true /\
    is_empty (r_date r) = false.
Proof.
  intros [[k [Hk Ek]] _].
  exists (dt_date (add_days START_DATE k)).
  split.
  - rewrite <- add_days_midnight. exact Ek.
  - rewrite Ek. apply date_text_check_facts.
    exact (date_check_ok Hk).
Qed.

Lemma fields_plain r : in_config r -> plain_row 5 (fields r).
Proof.
  intros Hr. destruct (date_field_facts Hr) as [d [_ [_ [_ [_ [Hc [Hn He]]]]]]].
  destruct Hr as [_ [Hcr [Hdi _]]].
  destruct (@label_plain (r_crime r) (or_introl Hcr)) as [C1 C2].
  destruct (@label_plain (r_district r) (or_intror Hdi)) as [D1 D2].
  destruct (repr_float_plain (r_lat r)) as [A1 A2].
  destruct (repr_float_plain (r_lon r)) as [O1 O2].
  unfold plain_row, fields. cbn [List.length hd].
  split; [reflexivity|]. split; [exact He|].
  repeat (constructor; [split; assumption|]). constructor.
Qed.

Lemma columns_plain : plain_row (List.length COLUMNS) COLUMNS.
Proof.
  unfold plain_row. split; [reflexivity|]. split; [reflexivity|].
  repeat (constructor; [split; reflexivity|]). constructor.
Qed.

Lemma convert_dates_records (recs : list record) :
  Forall in_config recs ->
  Forall2 loaded_from recs (convert_dates 0 (map fields recs)).
Proof.
  intros Hall. unfold convert_dates.
  assert (H : exists ts,
             date_column 0 (map fields recs) = Some ts /\
             Forall2 (fun r t => loaded_from r
                        (set_cell 0 (Ts t) (map Txt (fields r)))) recs ts).
  { induction Hall as [|r recs Hr Hrecs IH].
    - exists []. split; [reflexivity | constructor].
    - destruct IH as [ts [Ets Hts]].
      destruct (date_field_facts Hr) as [d [E1 [E2 [E3 [E4 _]]]]].
      exists (mkts d 0 :: ts). split.
      + unfold date_column in *. cbn [map fold_right].
        rewrite Ets. unfold fields at 1. cbn [nth]. rewrite E4. reflexivity.
      + constructor; [|exact Hts]. exists d. repeat split; assumption. }
  destruct H as [ts [-> Hts]].
  induction Hts as [|r t recs ts Hrt Hrest IH]; cbn [map combine];
    constructor; [exact Hrt | apply IH].
  inversion Hall; assumption.
Qed.

(** C8. Every generated record has its latitude and its longitude inside
    the configured box and its date inside the configured range, both ends
    included; the written file is read back by the loader with the five
    columns and one row per generated record, none dropped, the dates
    converted to the days that were generated. *)
Theorem generator_round_trip (g : RandomState) :
  Forall (fun r =>
            (LAT_MIN <= r_lat r <= LAT_MAX)%Q /\
            (LON_MIN <= r_lon r <= LON_MAX)%Q /\
            exists d, r_date r = strftime_ymd (mkdatetime d 0) /\
                      date_le (dt_date START_DATE) d /\
                      date_le d (dt_date END_DATE))
         (records g) /\
  exists frame,
    read_csv (crime_data_csv g) = Returned frame /\
    columns frame = COLUMNS /\
    List.length (data frame) = NUM_RECORDS /\
    Forall2 loaded_from (records g) (data frame).
Proof.
  destruct (records_in_config g) as [Hall Hlen]. split.
  - eapply Forall_impl; [|exact Hall]. intros r Hr.
    destruct (date_field_facts Hr) as [d [E1 [E2 [E3 _]]]].
    destruct Hr as [_ [_ [_ [Hlat Hlon]]]].
    split; [exact Hlat|]. split; [exact Hlon|]. exists d. auto.
  - exists (mkframe COLUMNS (convert_dates 0 (map fields (records g)))).
    pose proof (convert_dates_records Hall) as Hconv.
    split; [|split; [reflexivity|split; [|exact Hconv]]].
    + unfold crime_data_csv. apply read_csv_to_csv.
      * exact columns_plain.
      * reflexivity.
      * apply Forall_map. eapply Forall_impl; [|exact Hall].
        intros r Hr. apply fields_plain. exact Hr.
    + cbn [data]. rewrite <- (Forall2_length Hconv). exact Hlen.
Qed.

End GeneratorFacts.

(** ** The statements on example data *)

Section Instances.
Import Filter Aggregate Forecast Csv Loader.

Lemma valid_frameb_ok df : valid_frameb df = true -> valid_frame df.
Proof.
  unfold valid_frameb, valid_frame. rewrite forallb_forall, Forall_forall.
  intros H r Hr. specialize (H r Hr).
  unfold valid_tsb, valid_dateb in H.
  rewrite !andb_true_iff, !Z.leb_le, Z.ltb_lt in H.
  unfold valid_ts, valid_date. lia.
Qed.

(** C2, the claim as stated fails: the filtered frame has no row in
    February 2025, and the series has an entry for that month, with
    count 0. *)
Lemma fig_ts_gap_month :
  In (mkts (mkdate 2025 2 28) 0, 0) (fig_ts gap_filtered) /\
  ~ (exists r, In r gap_filtered /\ month_key (Date r) = (2025, 2)).
Proof.
  split.
  - vm_compute. right. left. reflexivity.
  - intros [r [Hr Hk]]. vm_compute in Hr.
    destruct Hr as [<-|[<-|[<-|[]]]]; discriminate Hk.
Qed.

Lemma fig_ts_zero_filled_witness :
  valid_frame gap_filtered /\
  (forall y m, 1 <= m <= 12 ->
     (In (y, m) (map (fun e => month_key (fst e)) (fig_ts gap_filtered)) <->
      exists r1 r2,
        In r1 gap_filtered /\ In r2 gap_filtered /\
        month_key_le (month_key (Date r1)) (y, m) /\
        month_key_le (y, m) (month_key (Date r2)))) /\
  (forall e, In e (fig_ts gap_filtered) ->
     snd e = rows_in_month (month_key (fst e)) gap_filtered).
Proof.
  assert (Hv : valid_frame gap_filtered)
    by (apply valid_frameb_ok; vm_compute; reflexivity).
  split; [exact Hv | exact (@fig_ts_zero_filled gap_filtered Hv)].
Defined.

Lemma aggregate_empty_witness :
  filtered gap_frame (mkdate 2025 1 10) (mkdate 2025 3 9) "All" [] = [] /\
  aggregate (filtered gap_frame (mkdate 2025 1 10) (mkdate 2025 3 9) "All" [])
  = mkagg 0 0 0 [] [] [].
Proof.
  split; [reflexivity | apply aggregate_empty; reflexivity].
Defined.


Lemma forecast_anchor_witness :
  valid_frame anchor_frame /\
  forecast_block true anchor_frame "Harare" = Some anchor_prediction /\
  exists last,
    series_max (map Date anchor_frame) = Some last /\
    (exists r, In r anchor_frame /\ Date r = last) /\
    (forall r, In r anchor_frame -> ts_le (Date r) last) /\
    (forall r, In r anchor_frame ->
       month_index (Date r) <= month_index last) /\
    anchor_prediction
    = predict
        (fit (map (fun e => inject_Z (month_index (fst e)))
                  (hist anchor_frame "Harare"))
             (map (fun e => inject_Z (snd e)) (hist anchor_frame "Harare")))
        (inject_Z (ts_year last * 12 + ts_month last + 1)).
Proof.
  assert (Hv : valid_frame anchor_frame)
    by (apply valid_frameb_ok; vm_compute; reflexivity).
  assert (Hp : forecast_block true anchor_frame "Harare" = Some anchor_prediction)
    by (vm_compute; reflexivity).
  split; [exact Hv|]. split; [exact Hp|].
  exact (@forecast_anchor true anchor_frame "Harare"%string anchor_prediction Hv Hp).
Defined.

(** On [anchor_frame] the latest row of Harare is in February 2025
    (index 24302) and the latest row of the frame in May 2025 (index
    24305); the line through (24301, 1) and (24302, 2) is evaluated at
    24306 and gives 6, not at 24303. *)
Lemma anchor_prediction_value : (anchor_prediction == 6)%Q.
Proof. vm_compute. reflexivity. Qed.



Lemma upload_failure_falls_back_witness :
  read_csv bad_upload = Raised MissingDateColumn /\
  upload_csv (Some bad_upload) fresh_session
    = (None, mksession (sidebar fresh_session ++ [error MissingDateColumn])
                       (cache fresh_session)) /\
  fst (load_frame example_fs (Some bad_upload) fresh_session)
    = fst (load_frame example_fs None fresh_session) /\
  fst (load_frame example_fs None fresh_session)
    = fst (load_data example_fs "crime_data.csv" fresh_session) /\
  cache (snd (load_frame example_fs (Some bad_upload) fresh_session))
    = cache (snd (load_frame example_fs None fresh_session)) /\
  sidebar (snd (load_frame example_fs (Some bad_upload) fresh_session))
    = sidebar (snd (load_frame example_fs None fresh_session))
      ++ [error MissingDateColumn].
Proof.
  assert (H : read_csv bad_upload = Raised MissingDateColumn)
    by (vm_compute; reflexivity).
  split; [exact H|].
  exact (@upload_failure_falls_back example_fs bad_upload MissingDateColumn
           fresh_session H).
Defined.

End Instances.

(** ** The sidebar and the filter: further statements *)

Section WidgetTheorems.
Import Filter Aggregate.

Lemma ts_le_date_le a b : ts_le a b -> date_le (ts_date a) (ts_date b).
Proof. unfold ts_le, date_le, ts_year, ts_month. lia. Qed.

Lemma date_le_trans a b c : date_le a b -> date_le b c -> date_le a c.
Proof. unfold date_le. lia. Qed.

Lemma filter_all (A : Type) (f : A -> bool) (l : list A) :
  (forall x, In x l -> f x = true) -> List.filter f l = l.
Proof.
  induction l as [|x l IH]; intros H; simpl; [reflexivity|].
  rewrite (H x (or_introl eq_refl)), IH; [reflexivity|].
  intros y Hy. apply H. right. exact Hy.
Qed.

Lemma filter_none (A : Type) (f : A -> bool) (l : list A) :
  (forall x, In x l -> f x = false) -> List.filter f l = [].
Proof.
  induction l as [|x l IH]; intros H; simpl; [reflexivity|].
  rewrite (H x (or_introl eq_refl)). apply IH.
  intros y Hy. apply H. right. exact Hy.
Qed.

Lemma keep_true start end_ category districts r :
  keep start end_ category districts r = true <->
  date_le start (ts_date (Date r)) /\ date_le (ts_date (Date r)) end_ /\
  In (District r) districts /\
  (category = "All"%string \/ Crime_Type r = category).
Proof.
  unfold keep.
  rewrite !andb_true_iff, orb_true_iff, !date_leb_le, isin_In, !String.eqb_eq.
  tauto.
Qed.

(** X2. With no district selected the filtered frame is empty, whatever
    the dates and the category, and every metric and chart table is the
    empty one. *)
Theorem no_district_selected (df : DataFrame) (start end_ : date)
        (category : string) :
  filtered df start end_ category [] = [] /\
  aggregate (filtered df start end_ category []) = mkagg 0 0 0 [] [] [].
Proof.
  assert (H : filtered df start end_ category [] = []).
  { rewrite filtered_filter. apply filter_none. intros r _.
    unfold keep. simpl. rewrite andb_false_r. reflexivity. }
  rewrite H. split; reflexivity.
Qed.

(** X3. When the start date is after the end date the filtered frame is
    empty. *)
Theorem inverted_date_range (df : DataFrame) (start end_ : date)
        (category : string) (districts : list string) :
  ~ date_le start end_ ->
  filtered df start end_ category districts = [].
Proof.
  intros Hinv. rewrite filtered_filter. apply filter_none. intros r _.
  destruct (keep start end_ category districts r) eqn:E; [|reflexivity].
  apply keep_true in E. destruct E as [H1 [H2 _]].
  exfalso. apply Hinv. eapply date_le_trans; eassumption.
Qed.

(** X4. Widening the date range or selecting more districts never loses a
    row: every row of the narrower selection is a row of the wider one. *)
Theorem filtered_monotone (df : DataFrame) (start start' end_ end_' : date)
        (category : string) (districts districts' : list string) :
  date_le start' start -> date_le end_ end_' -> incl districts districts' ->
  incl (filtered df start end_ category districts)
       (filtered df start' end_' category districts').
Proof.
  intros Hs He Hd r. rewrite !filtered_filter, !filter_In, !keep_true.
  intros [Hr [H1 [H2 [H3 H4]]]]. split; [exact Hr|].
  split; [eapply date_le_trans; eassumption|].
  split; [eapply date_le_trans; eassumption|].
  split; [apply Hd; exact H3 | exact H4].
Qed.

End WidgetTheorems.

(** ** The metrics and the chart tables: further statements *)

Section TableTheorems.
Import Filter Aggregate.

Lemma insert_by_sorted (A : Type) (leb : A -> A -> bool) (x : A) (l : list A) :
  (forall a b, leb a b = false -> leb b a = true) ->
  Sorted (fun a b => leb a b = true) l ->
  Sorted (fun a b => leb a b = true) (insert_by leb x l).
Proof.
  intros Htot. induction 1 as [|y l Hl IH Hy]; simpl.
  - constructor; constructor.
  - destruct (leb x y) eqn:E.
    + constructor; [constructor; assumption | constructor; exact E].
    + constructor; [exact IH|].
      destruct l as [|z l]; simpl.
      * constructor. apply Htot. exact E.
      * destruct (leb x z); constructor.
        -- apply Htot. exact E.
        -- inversion Hy; assumption.
Qed.

Lemma sort_by_sorted (A : Type) (leb : A -> A -> bool) (l : list A) :
  (forall a b, leb a b = false -> leb b a = true) ->
  Sorted (fun a b => leb a b = true) (sort_by leb l).
Proof.
  intros Htot. induction l as [|x l IH]; simpl; [constructor|].
  apply insert_by_sorted; assumption.
Qed.

Lemma Sorted_map (A B : Type) (R : A -> A -> Prop) (S : B -> B -> Prop)
      (f : A -> B) (l : list A) :
  (forall x y, R x y -> S (f x) (f y)) -> Sorted R l -> Sorted S (map f l).
Proof.
  intros Hf. induction 1 as [|x l Hl IH Hx]; simpl; constructor.
  - exact IH.
  - destruct Hx; simpl; constructor. apply Hf. assumption.
Qed.

Lemma Sorted_impl (A : Type) (R S : A -> A -> Prop) (l : list A) :
  (forall x y, R x y -> S x y) -> Sorted R l -> Sorted S l.
Proof.
  intros H. induction 1 as [|x l Hl IH Hx]; constructor; [exact IH|].
  destruct Hx; constructor. apply H. assumption.
Qed.

Lemma count_label_rows (g : row -> string) (v : string) (df : DataFrame) :
  count_label v (map g df)
  = Z.of_nat (List.length (List.filter (fun r => String.eqb (g r) v) df)).
Proof.
  unfold count_label. f_equal.
  induction df as [|r df IH]; simpl; [reflexivity|].
  rewrite (String.eqb_sym v (g r)).
  destruct (String.eqb (g r) v); simpl; rewrite IH; reflexivity.
Qed.

Lemma count_label_pos v s : In v s -> 1 <= count_label v s.
Proof.
  intros H. unfold count_label.
  assert (Hin : In v (List.filter (String.eqb v) s)).
  { apply filter_In. split; [exact H | apply String.eqb_refl]. }
  destruct (List.filter (String.eqb v) s); [contradiction|].
  simpl List.length. lia.
Qed.

Lemma string_leb_total a b : String.leb a b = false -> String.leb b a = true.
Proof.
  intros H. destruct (String.leb_total a b) as [H'|H']; congruence.
Qed.

(** X6. The table of the pie chart has exactly one entry for each crime
    type that occurs in the filtered frame, holding the number of rows of
    that type, which is at least 1; the entries come in order of
    decreasing count and their number is the "Crime Categories" metric. *)
Theorem fig_pie_table (filtered : DataFrame) :
  (forall v c, In (v, c) (fig_pie filtered) <->
     In v (map Crime_Type filtered) /\
     c = Z.of_nat (List.length
           (List.filter (fun r => String.eqb (Crime_Type r) v) filtered))) /\
  NoDup (map fst (fig_pie filtered)) /\
  (forall e, In e (fig_pie filtered) -> 1 <= snd e) /\
  Sorted (fun a b => snd b <= snd a) (fig_pie filtered) /\
  Z.of_nat (List.length (fig_pie filtered)) = ucat filtered.
Proof.
  unfold fig_pie, value_counts, ucat, nunique.
  set (s := map Crime_Type filtered).
  set (tbl := map (fun v => (v, count_label v s)) (unique s)).
  set (leb := fun a b : string * Z => snd b <=? snd a).
  pose proof (sort_by_perm leb tbl) as Hperm.
  assert (Hmem : forall v c, In (v, c) (sort_by leb tbl) <->
                   In v s /\ c = count_label v s).
  { intros v c. split.
    - intros H. apply (Permutation_in _ Hperm) in H.
      unfold tbl in H. apply in_map_iff in H. destruct H as [v' [E Hv']].
      injection E as -> <-. rewrite unique_In in Hv'. auto.
    - intros [Hv ->]. apply (Permutation_in _ (Permutation_sym Hperm)).
      unfold tbl. apply in_map_iff. exists v. split; [reflexivity|].
      apply unique_In. exact Hv. }
  split; [|split; [|split; [|split]]].
  - intros v c. rewrite Hmem. unfold s. rewrite count_label_rows. tauto.
  - eapply Permutation_NoDup;
      [apply Permutation_map, Permutation_sym, Hperm|].
    unfold tbl. rewrite map_map. simpl. rewrite map_id. apply unique_NoDup.
  - intros [v c] He. apply (proj1 (Hmem v c)) in He. destruct He as [Hv ->]. simpl.
    apply count_label_pos. exact Hv.
  - eapply Sorted_impl; [|apply sort_by_sorted].
    + intros a b H. unfold leb in H. apply Z.leb_le in H. exact H.
    + intros a b H. unfold leb in *. apply Z.leb_gt in H. apply Z.leb_le. lia.
  - rewrite (Permutation_length Hperm). unfold tbl. rewrite length_map.
    reflexivity.
Qed.

(** X7. The table of the bar chart has exactly one entry for each district
    that occurs in the filtered frame, holding the number of rows of that
    district, which is at least 1; the entries come in the order of the
    district names and their number is the "Affected Districts" metric. *)
Theorem fig_bar_table (filtered : DataFrame) :
  (forall v c, In (v, c) (fig_bar filtered) <->
     In v (map District filtered) /\
     c = Z.of_nat (List.length
           (List.filter (fun r => String.eqb (District r) v) filtered))) /\
  NoDup (map fst (fig_bar filtered)) /\
  (forall e, In e (fig_bar filtered) -> 1 <= snd e) /\
  Sorted (fun a b => String.leb (fst a) (fst b) = true) (fig_bar filtered) /\
  Z.of_nat (List.length (fig_bar filtered)) = dud filtered.
Proof.
  unfold fig_bar, groupby_size, dud, nunique.
  set (s := map District filtered).
  pose proof (sort_by_perm String.leb (unique s)) as Hperm.
  assert (Hmem : forall v c,
             In (v, c) (map (fun v => (v, count_label v s))
                            (sort_by String.leb (unique s))) <->
             In v s /\ c = count_label v s).
  { intros v c. rewrite in_map_iff. split.
    - intros [v' [E Hv']]. injection E as -> <-.
      apply (Permutation_in _ Hperm) in Hv'. rewrite unique_In in Hv'. auto.
    - intros [Hv ->]. exists v. split; [reflexivity|].
      apply (Permutation_in _ (Permutation_sym Hperm)).
      apply unique_In. exact Hv. }
  split; [|split; [|split; [|split]]].
  - intros v c. rewrite Hmem. unfold s. rewrite count_label_rows. tauto.
  - rewrite map_map. simpl. rewrite map_id.
    eapply Permutation_NoDup; [apply Permutation_sym, Hperm|].
    apply unique_NoDup.
  - intros [v c] He. apply (proj1 (Hmem v c)) in He. destruct He as [Hv ->]. simpl.
    apply count_label_pos. exact Hv.
  - eapply Sorted_map; [|apply (sort_by_sorted String.leb)].
    + intros a b H. exact H.
    + exact string_leb_total.
  - rewrite length_map, (Permutation_length Hperm). reflexivity.
Qed.

Lemma unique_length_incl s1 s2 :
  incl s1 s2 -> (List.length (unique s1) <= List.length (unique s2))%nat.
Proof.
  intros H. apply NoDup_incl_length; [apply unique_NoDup|].
  intros x Hx. apply unique_In. apply H. rewrite unique_In in Hx. exact Hx.
Qed.

Lemma unique_length_le s : (List.length (unique s) <= List.length s)%nat.
Proof.
  apply NoDup_incl_length; [apply unique_NoDup|].
  intros x Hx. rewrite unique_In in Hx. exact Hx.
Qed.

(** X8. The two distinct-value metrics of the filtered frame never exceed
    the number of distinct values of the loaded frame, nor the total
    number of filtered rows. *)
Theorem distinct_metrics_bounded (df : DataFrame) (start end_ : date)
        (category : string) (districts : list string) :
  ucat (filtered df start end_ category districts)
    <= nunique (map Crime_Type df) /\
  dud (filtered df start end_ category districts)
    <= nunique (map District df) /\
  ucat (filtered df start end_ category districts)
    <= tot (filtered df start end_ category districts) /\
  dud (filtered df start end_ category districts)
    <= tot (filtered df start end_ category districts) /\
  tot (filtered df start end_ category districts)
    <= Z.of_nat (List.length df).
Proof.
  set (f := filtered df start end_ category districts).
  unfold ucat, dud, tot, nunique.
  assert (Hincl : incl f df).
  { unfold f. rewrite filtered_filter. intros r Hr.
    apply filter_In in Hr. tauto. }
  assert (Hlen : (List.length f <= List.length df)%nat).
  { unfold f. rewrite filtered_filter. apply filter_length_le. }
  pose proof (unique_length_incl (incl_map Crime_Type Hincl)).
  pose proof (unique_length_incl (incl_map District Hincl)).
  pose proof (unique_length_le (map Crime_Type f)) as H1.
  pose proof (unique_length_le (map District f)) as H2.
  rewrite length_map in H1, H2. lia.
Qed.

(** X9. With a category other than "All" selected, every filtered row has
    that crime type, so the "Crime Categories" metric is at most 1. *)
Theorem category_selected (df : DataFrame) (start end_ : date)
        (category : string) (districts : list string) :
  category <> "All"%string ->
  (forall r, In r (filtered df start end_ category districts) ->
     Crime_Type r = category) /\
  ucat (filtered df start end_ category districts) <= 1.
Proof.
  intros Hcat.
  assert (Hall : forall r, In r (filtered df start end_ category districts) ->
                   Crime_Type r = category).
  { intros r. rewrite filtered_filter, filter_In. intros [_ Hk].
    unfold keep in Hk. rewrite andb_true_iff, orb_true_iff, !String.eqb_eq in Hk.
    destruct Hk as [_ [Hk|Hk]]; [contradiction | exact Hk]. }
  split; [exact Hall|].
  unfold ucat, nunique.
  pose proof (@unique_length_incl
                (map Crime_Type (filtered df start end_ category districts))
                [category]) as H.
  simpl in H. assert (H' := H (fun x Hx =>
    match proj1 (in_map_iff _ _ _) Hx with
    | ex_intro _ r (conj E Hr) =>
        or_introl (eq_trans (eq_sym (Hall r Hr)) E)
    end)).
  lia.
Qed.

End TableTheorems.

(** ** The monthly series and the forecast: further statements *)

Section SeriesTheorems.
Import Filter Aggregate Forecast.

Lemma zrange_succ lo n :
  zrange lo (S n) = zrange lo n ++ [lo + Z.of_nat n].
Proof. unfold zrange. rewrite seq_S, map_app. reflexivity. Qed.

Lemma zrange_head lo n : zrange lo (S n) = lo :: zrange (lo + 1) n.
Proof.
  unfold zrange. simpl. rewrite Z.add_0_r. f_equal.
  rewrite <- seq_shift, map_map. apply map_ext. intros i. lia.
Qed.

Lemma zrange_length lo n : List.length (zrange lo n) = n.
Proof. unfold zrange. rewrite length_map, length_seq. reflexivity. Qed.

Lemma count_month_pos (df : DataFrame) (r : row) :
  In r df -> 1 <= count_month (month_ord (Date r)) df.
Proof.
  intros Hr. unfold count_month.
  assert (Hin : In r (List.filter
                        (fun r' => month_ord (Date r') =? month_ord (Date r)) df)).
  { apply filter_In. split; [exact Hr | apply Z.eqb_refl]. }
  destruct (List.filter _ df); [contradiction|]. simpl List.length. lia.
Qed.

Lemma month_end_key_of (t : Timestamp) :
  1 <= ts_month t <= 12 -> month_key (month_end (month_ord t)) = month_key t.
Proof.
  intros Hm. rewrite month_end_key. unfold month_key, month_ord.
  pose proof (Z.div_mod (ts_year t * 12 + (ts_month t - 1)) 12 ltac:(lia)).
  pose proof (Z.mod_pos_bound (ts_year t * 12 + (ts_month t - 1)) 12 ltac:(lia)).
  f_equal; lia.
Qed.

(** X10. On a filtered frame with at least one row the monthly series
    starts at the month of the earliest row and stops at the month of the
    latest row, and these two entries count at least one row: zero counts
    occur only strictly inside the series. *)
Theorem fig_ts_ends (filtered : DataFrame) :
  valid_frame filtered -> filtered <> [] ->
  exists rlo rhi first last,
    In rlo filtered /\ In rhi filtered /\
    (forall r, In r filtered ->
       ts_le (Date rlo) (Date r) /\ ts_le (Date r) (Date rhi)) /\
    hd_error (fig_ts filtered) = Some first /\
    List.last (fig_ts filtered) first = last /\
    month_key (fst first) = month_key (Date rlo) /\
    month_key (fst last) = month_key (Date rhi) /\
    1 <= snd first /\ 1 <= snd last.
Proof.
  intros Hv Hne. unfold fig_ts.
  destruct (groupby_month_size_bins Hne) as [rlo [rhi [Hlo [Hhi [Hb E]]]]].
  pose proof (@valid_frame_month filtered rlo Hv Hlo) as Vlo.
  pose proof (@valid_frame_month filtered rhi Hv Hhi) as Vhi.
  assert (Hle : month_ord (Date rlo) <= month_ord (Date rhi)).
  { apply ts_le_month_ord; auto. apply (Hb rhi Hhi). }
  set (lo := month_ord (Date rlo)) in *. set (hi := month_ord (Date rhi)) in *.
  assert (En : Z.to_nat (hi - lo + 1) = S (Z.to_nat (hi - lo))) by lia.
  rewrite En in E.
  exists rlo, rhi, (month_end lo, count_month lo filtered),
         (month_end hi, count_month hi filtered).
  split; [exact Hlo|]. split; [exact Hhi|]. split; [exact Hb|].
  split; [|split; [|split; [|split; [|split]]]].
  - rewrite E, zrange_head. reflexivity.
  - rewrite E, zrange_succ, map_app. simpl map. rewrite last_last.
    replace (lo + Z.of_nat (Z.to_nat (hi - lo))) with hi by lia. reflexivity.
  - simpl fst. apply month_end_key_of. exact Vlo.
  - simpl fst. apply month_end_key_of. exact Vhi.
  - simpl snd. apply count_month_pos. exact Hlo.
  - simpl snd. apply count_month_pos. exact Hhi.
Qed.

(** X11. The regressors of the forecast are consecutive integers: the
    month numbers of [hist] increase by exactly one from each entry to the
    next, months without rows included. *)
Theorem hist_months_consecutive (df : DataFrame) (pdist : string) :
  exists M0,
    map (fun e => month_index (fst e)) (hist df pdist)
    = zrange M0 (List.length (hist df pdist)).
Proof.
  unfold hist.
  destruct (groupby_month_size_shape
              (getitem_mask df (series_eq (map District df) pdist)))
    as [lo [n E]].
  rewrite E. exists (lo + 1). rewrite map_map, length_map, zrange_length.
  simpl. unfold zrange. rewrite !map_map. apply map_ext. intros i.
  rewrite month_ord_index, month_end_ord. lia.
Qed.

Lemma two_distinct_months (rows : DataFrame) :
  (2 <= List.length (distinct_months rows))%nat ->
  exists r1 r2, In r1 rows /\ In r2 rows /\
                month_key (Date r1) <> month_key (Date r2).
Proof.
  unfold distinct_months. intros Hlen.
  set (ks := map (fun r => month_key (Date r)) rows) in *.
  pose proof (NoDup_nodup month_key_eq_dec ks) as Hnd.
  assert (Hin : forall k, In k (nodup month_key_eq_dec ks) ->
                  exists r, In r rows /\ month_key (Date r) = k).
  { intros k Hk. apply nodup_In in Hk. unfold ks in Hk.
    apply in_map_iff in Hk. destruct Hk as [r [E Hr]]. exists r. auto. }
  destruct (nodup month_key_eq_dec ks) as [|k1 [|k2 t]]; simpl in Hlen; try lia.
  destruct (Hin k1 (or_introl eq_refl)) as [r1 [H1 E1]].
  destruct (Hin k2 (or_intror (or_introl eq_refl))) as [r2 [H2 E2]].
  exists r1, r2. split; [exact H1|]. split; [exact H2|].
  rewrite E1, E2. intros ->. inversion Hnd as [|? ? Hk1 _]. apply Hk1.
  left. reflexivity.
Qed.

(** X12. When scikit-learn is available and the rows of the district fall
    in at least two distinct calendar months, the forecast block produces a
    prediction. *)
Theorem forecast_available (df : DataFrame) (pdist : string) :
  valid_frame df ->
  (2 <= List.length (distinct_months (rows_of_district df pdist)))%nat ->
  exists p, forecast_block true df pdist = Some p.
Proof.
  intros Hv Hmany. simpl. unfold forecast.
  destruct (two_distinct_months _ Hmany) as [r1 [r2 [H1 [H2 Hk]]]].
  pose proof (valid_frame_district pdist Hv) as Hvd.
  assert (Hne : rows_of_district df pdist <> []).
  { intros E. rewrite E in H1. exact H1. }
  assert (Hlen : (1 < List.length (hist df pdist))%nat).
  { rewrite hist_rows.
    destruct (groupby_month_size_bins Hne) as [rlo [rhi [Hlo [Hhi [Hb ->]]]]].
    rewrite length_map, zrange_length.
    pose proof (@valid_frame_month _ r1 Hvd H1) as V1.
    pose proof (@valid_frame_month _ r2 Hvd H2) as V2.
    pose proof (@valid_frame_month _ rlo Hvd Hlo) as Vlo.
    pose proof (@valid_frame_month _ rhi Hvd Hhi) as Vhi.
    destruct (Hb r1 H1) as [A1 B1]. destruct (Hb r2 H2) as [A2 B2].
    apply ts_le_month_ord in A1, B1, A2, B2; auto.
    assert (month_ord (Date r1) <> month_ord (Date r2)).
    { intros E. apply Hk. unfold month_key, month_ord in *. f_equal; lia. }
    lia. }
  apply Nat.ltb_lt in Hlen. rewrite Hlen.
  assert (Hdf : hist df pdist <> []).
  { apply Nat.ltb_lt in Hlen. intros E. rewrite E in Hlen. simpl in Hlen. lia. }
  destruct (@hist_nonempty_frame df pdist Hdf) as [last ->].
  eexists. reflexivity.
Qed.

End SeriesTheorems.

(** ** The loader: further statements *)

Section LoaderMore.
Import Csv Loader.

(** X13. An upload that reads well takes precedence: the session works on
    the uploaded frame and reports its number of records; the default file
    is not read (it may be missing or broken) and the cache is untouched. *)
Theorem upload_takes_precedence (fs : filesystem) (text : string)
        (df : Frame) (s : session) :
  read_csv text = Returned df ->
  load_frame fs (Some text) s
  = (Returned df,
     mksession (sidebar s ++ [success (List.length (data df))]) (cache s)).
Proof.
  intros Hread. unfold load_frame, upload_csv. rewrite Hread. reflexivity.
Qed.

Lemma load_data_cached fs path s df s1 :
  load_data fs path s = (Returned df, s1) ->
  cache_lookup path (cache s1) = Some df.
Proof.
  unfold load_data.
  destruct (cache_lookup path (cache s)) as [c|] eqn:Ec.
  - intros [= <- <-]. exact Ec.
  - destruct (fs path) as [text|]; [|discriminate].
    destruct (read_csv text) as [f|e]; [|discriminate].
    intros [= <- <-]. simpl. rewrite String.eqb_refl. reflexivity.
Qed.

(** X14. Once [load_data] has returned a frame for a path, every later call
    for that path returns the same frame and leaves the session as it is,
    whatever has become of the file in the meantime. *)
Theorem load_data_served_from_cache (fs fs' : filesystem) (path : string)
        (s s1 : session) (df : Frame) :
  load_data fs path s = (Returned df, s1) ->
  load_data fs' path s1 = (Returned df, s1).
Proof.
  intros H. apply load_data_cached in H. unfold load_data. rewrite H.
  reflexivity.
Qed.

(** X15. A failed [load_data] is not remembered: the session is unchanged,
    and a later call that finds a readable file returns its frame. *)
Theorem load_data_failure_not_cached (fs fs' : filesystem) (path : string)
        (s s1 : session) (e : exn) (text : string) (df : Frame) :
  load_data fs path s = (Raised e, s1) ->
  fs' path = Some text -> read_csv text = Returned df ->
  s1 = s /\ fst (load_data fs' path s1) = Returned df.
Proof.
  unfold load_data.
  destruct (cache_lookup path (cache s)) as [c|] eqn:Ec; [discriminate|].
  intros H Hfs Hread.
  assert (Es : s1 = s).
  { destruct (fs path) as [t|]; [|injection H as _ <-; reflexivity].
    destruct (read_csv t); [discriminate | injection H as _ <-; reflexivity]. }
  split; [exact Es|]. rewrite Es, Ec, Hfs, Hread. reflexivity.
Qed.

End LoaderMore.

(** ** The PDF export: statements *)

Section ReportTheorems.
Import Report.

Lemma filter_fresh (n : nat) (l : list nat) :
  Forall (fun f => (f < n)%nat) l ->
  List.filter (fun f => negb (Nat.eqb f n)) l = l.
Proof.
  intros H. apply filter_all. intros x Hx.
  rewrite Forall_forall in H. specialize (H x Hx).
  apply negb_true_iff, Nat.eqb_neq. lia.
Qed.

Lemma embed_figure_world (pdf : FPDF) (w : world) (fig : figure) :
  temp_names_used w ->
  let w' := snd (embed_figure (pdf, w) fig) in
  temp_files w' = temp_files w /\
  next_temp w' = S (next_temp w) /\
  temp_names_used w' /\
  st_errors w' = st_errors w ++ collect_errors [fig].
Proof.
  intros Hw. unfold embed_figure, NamedTemporaryFile, collect_errors,
    figure_error.
  assert (Hf : List.filter (fun f => negb (Nat.eqb f (next_temp w)))
                 (next_temp w :: temp_files w) = temp_files w).
  { simpl. rewrite Nat.eqb_refl. simpl. apply filter_fresh. exact Hw. }
  assert (Hu : Forall (fun f => (f < S (next_temp w))%nat) (temp_files w)).
  { eapply Forall_impl; [|exact Hw]. simpl. intros; lia. }
  unfold temp_names_used.
  destruct (write_image fig) as [e|]; [|destruct (embed_image fig) as [e|]];
    simpl; rewrite Nat.eqb_refl; simpl; rewrite (filter_fresh Hw);
    rewrite ?app_nil_r; auto.
Qed.

Lemma embed_figure_pages (pdf : FPDF) (w : world) (fig : figure) :
  List.length (fst (embed_figure (pdf, w) fig))
  = (List.length pdf + (if written fig then 1 else 0))%nat /\
  (pdf <> [] -> hd_error (fst (embed_figure (pdf, w) fig)) = hd_error pdf).
Proof.
  assert (Hdraw : forall it (p : FPDF) pg, draw it (p ++ [pg]) = p ++ [pg ++ [it]]).
  { intros it p pg. induction p as [|x p IH]; [reflexivity|].
    simpl. rewrite IH. destruct (p ++ [pg]) eqn:E; [|reflexivity].
    destruct p; discriminate E. }
  unfold embed_figure, NamedTemporaryFile, written, add_page.
  destruct (write_image fig) as [e|]; [|destruct (embed_image fig) as [e|]];
    simpl fst; rewrite ?Hdraw, ?length_app; simpl List.length.
  - split; [lia | reflexivity].
  - split; [lia|]. destruct pdf; [congruence | reflexivity].
  - split; [lia|]. destruct pdf; [congruence | reflexivity].
Qed.

Lemma generate_loop (pdf : FPDF) (w : world) (figs : list figure) :
  temp_names_used w -> pdf <> [] ->
  let r := fold_left embed_figure figs (pdf, w) in
  temp_files (snd r) = temp_files w /\
  st_errors (snd r) = st_errors w ++ collect_errors figs /\
  List.length (fst r)
  = (List.length pdf + List.length (List.filter written figs))%nat /\
  hd_error (fst r) = hd_error pdf.
Proof.
  revert pdf w. induction figs as [|fig figs IH]; intros pdf w Hw Hne.
  - simpl. rewrite app_nil_r. auto.
  - cbn [fold_left].
    pose proof (embed_figure_world pdf fig Hw) as HW. cbv zeta in HW.
    pose proof (embed_figure_pages pdf w fig) as HP.
    revert HW HP. destruct (embed_figure (pdf, w) fig) as [pdf1 w1].
    cbn [fst snd]. intros [T [_ [U E]]] [L H].
    assert (Hne1 : pdf1 <> []).
    { intros ->. destruct pdf; [congruence|]. simpl in L.
      destruct (written fig); lia. }
    destruct (IH pdf1 w1 U Hne1) as [T' [E' [L' H']]].
    cbv zeta. rewrite T', E', L', H', T, E, L, (H Hne).
    split; [reflexivity|]. split.
    + rewrite <- app_assoc. f_equal. unfold collect_errors at 1 3.
      destruct (figure_error fig); reflexivity.
    + split; [|reflexivity]. simpl List.filter.
      destruct (written fig); simpl List.length; lia.
Qed.

(** X16. [generate_pdf] leaves no temporary file behind: the temporary
    files that exist afterwards are those that existed before, whether or
    not figures fail to export. *)
Theorem generate_pdf_removes_temp_files (m : metrics) (figs : list figure)
        (w : world) :
  temp_names_used w ->
  temp_files (snd (generate_pdf m figs w)) = temp_files w.
Proof.
  intros Hw. unfold generate_pdf.
  apply (@generate_loop [title_page m] w figs Hw). discriminate.
Qed.

(** X17. The report starts with the title page and has one further page for
    each figure whose image was written, in particular never more than one
    page per figure; a figure that fails does not stop the export of the
    figures after it, and each failure is reported with [st.error], in the
    order of the figures. *)
Theorem generate_pdf_pages (m : metrics) (figs : list figure) (w : world) :
  temp_names_used w ->
  hd_error (fst (generate_pdf m figs w)) = Some (title_page m) /\
  List.length (fst (generate_pdf m figs w))
  = S (List.length (List.filter written figs)) /\
  (List.length (fst (generate_pdf m figs w)) <= S (List.length figs))%nat /\
  st_errors (snd (generate_pdf m figs w)) = st_errors w ++ collect_errors figs.
Proof.
  intros Hw. unfold generate_pdf.
  destruct (@generate_loop [title_page m] w figs Hw ltac:(discriminate))
    as [_ [E [L H]]].
  split; [exact H|]. split; [exact L|]. split; [|exact E].
  eapply Nat.le_trans; [apply Nat.eq_le_incl; exact L|].
  pose proof (filter_length_le written figs). simpl. lia.
Qed.

End ReportTheorems.

(** ** The generator: further statements *)

Section OrdinalFacts.
Import Datetime Generator.

Lemma month_day_check_all :
  forallb (month_day_check false) (Aggregate.zrange 0 365) = true /\
  forallb (month_day_check true) (Aggregate.zrange 0 366) = true.
Proof. split; vm_compute; reflexivity. Qed.

Lemma days_before_year_split (q400 q100 q4 q1 : Z) :
  0 <= q100 <= 3 -> 0 <= q4 <= 24 -> 0 <= q1 <= 3 ->
  days_before_year (q400 * 400 + 1 + q100 * 100 + q4 * 4 + q1)
  = q400 * 146097 + q100 * 36524 + q4 * 1461 + q1 * 365.
Proof.
  intros H100 H4 H1. unfold days_before_year.
  Z.div_mod_to_equations. lia.
Qed.

Lemma is_leap_split (q400 q100 q4 q1 : Z) :
  0 <= q100 <= 3 -> 0 <= q4 <= 24 -> 0 <= q1 <= 3 ->
  is_leap (q400 * 400 + 1 + q100 * 100 + q4 * 4 + q1)
  = (q1 =? 3) && (negb (q4 =? 24) || (q100 =? 3)).
Proof.
  intros H100 H4 H1. unfold is_leap.
  set (y := q400 * 400 + 1 + q100 * 100 + q4 * 4 + q1).
  destruct (Z.eqb_spec (y mod 4) 0); destruct (Z.eqb_spec (y mod 100) 0);
    destruct (Z.eqb_spec (y mod 400) 0); destruct (Z.eqb_spec q1 3);
    destruct (Z.eqb_spec q4 24); destruct (Z.eqb_spec q100 3);
    simpl; try reflexivity; exfalso; subst y;
    Z.div_mod_to_equations; lia.
Qed.

Lemma month_day_ok (n : Z) (leapyear : bool) :
  0 <= n < 365 ->
  1 <= fst (month_day n leapyear) <= 12 /\
  1 <= snd (month_day n leapyear)
    <= DAYS_IN_MONTH (fst (month_day n leapyear))
       + (if (fst (month_day n leapyear) =? 2) && leapyear then 1 else 0) /\
  DAYS_BEFORE_MONTH (fst (month_day n leapyear))
  + (if (2 <? fst (month_day n leapyear)) && leapyear then 1 else 0)
  + snd (month_day n leapyear) = n + 1.
Proof.
  intros Hn. destruct month_day_check_all as [H0 H1].
  assert (Hc : month_day_check leapyear n = true).
  { destruct leapyear.
    - rewrite forallb_forall in H1. apply H1. apply zrange_In. lia.
    - rewrite forallb_forall in H0. apply H0. apply zrange_In. lia. }
  unfold month_day_check in Hc.
  destruct (month_day n leapyear) as [m d]. cbn [fst snd].
  rewrite !andb_true_iff, !Z.leb_le, Z.eqb_eq in Hc. lia.
Qed.

Lemma days_in_month_table (y m : Z) :
  1 <= m <= 12 ->
  days_in_month y m = DAYS_IN_MONTH m + (if (m =? 2) && is_leap y then 1 else 0).
Proof.
  intros Hm.
  assert (H : m = 1 \/ m = 2 \/ m = 3 \/ m = 4 \/ m = 5 \/ m = 6 \/ m = 7 \/
              m = 8 \/ m = 9 \/ m = 10 \/ m = 11 \/ m = 12) by lia.
  unfold days_in_month.
  repeat (destruct H as [->|H]; [simpl; destruct (is_leap y); reflexivity|]).
  subst m. reflexivity.
Qed.

Lemma ord2ymd_month_day (n : Z) :
  ord2ymd n =
  let n0 := n - 1 in
  let q400 := n0 / DI400Y in
  let r1 := n0 mod DI400Y in
  let q100 := r1 / DI100Y in
  let r2 := r1 mod DI100Y in
  let q4 := r2 / DI4Y in
  let r3 := r2 mod DI4Y in
  let q1 := r3 / 365 in
  let r4 := r3 mod 365 in
  let y := q400 * 400 + 1 + q100 * 100 + q4 * 4 + q1 in
  if (q1 =? 4) || (q100 =? 4) then mkdate (y - 1) 12 31
  else
    let leapyear := (q1 =? 3) && (negb (q4 =? 24) || (q100 =? 3)) in
    mkdate y (fst (month_day r4 leapyear)) (snd (month_day r4 leapyear)).
Proof.
  unfold ord2ymd, month_day. cbv zeta.
  destruct ((_ =? 4) || (_ =? 4)); [reflexivity|].
  destruct (_ <? _); reflexivity.
Qed.

(** [_ord2ymd] gives a date of the calendar and [_ymd2ord] maps it back to
    the ordinal it came from. *)
Lemma ord2ymd_ok (n : Z) :
  1 <= n ->
  valid_date (ord2ymd n) /\ 1 <= year (ord2ymd n) /\ ymd2ord (ord2ymd n) = n.
Proof.
  intros Hn. rewrite ord2ymd_month_day. cbv zeta. unfold DI400Y, DI100Y, DI4Y.
  pose proof (Z.div_mod (n - 1) 146097 ltac:(lia)) as E1.
  pose proof (Z.mod_pos_bound (n - 1) 146097 ltac:(lia)) as B1.
  set (q400 := (n - 1) / 146097) in *. set (r1 := (n - 1) mod 146097) in *.
  pose proof (Z.div_mod r1 36524 ltac:(lia)) as E2.
  pose proof (Z.mod_pos_bound r1 36524 ltac:(lia)) as B2.
  set (q100 := r1 / 36524) in *. set (r2 := r1 mod 36524) in *.
  pose proof (Z.div_mod r2 1461 ltac:(lia)) as E3.
  pose proof (Z.mod_pos_bound r2 1461 ltac:(lia)) as B3.
  set (q4 := r2 / 1461) in *. set (r3 := r2 mod 1461) in *.
  pose proof (Z.div_mod r3 365 ltac:(lia)) as E4.
  pose proof (Z.mod_pos_bound r3 365 ltac:(lia)) as B4.
  set (q1 := r3 / 365) in *. set (r4 := r3 mod 365) in *.
  assert (Q400 : 0 <= q400) by lia.
  assert (Q100 : 0 <= q100 <= 4) by lia.
  assert (Q4 : 0 <= q4 <= 24) by lia.
  assert (Q1 : 0 <= q1 <= 4) by lia.
  destruct ((q1 =? 4) || (q100 =? 4)) eqn:Esp.
  - (* the last day of a leap year *)
    assert (Hsp : q1 = 4 \/ q100 = 4).
    { apply orb_true_iff in Esp. rewrite !Z.eqb_eq in Esp. exact Esp. }
    clear Esp.
    assert (Ey : q400 * 400 + 1 + q100 * 100 + q4 * 4 + q1 - 1
                 = q400 * 400 + 1
                   + (if q100 =? 4 then 3 else q100) * 100
                   + (if q100 =? 4 then 24 else q4) * 4 + 3).
    { destruct (Z.eqb_spec q100 4); lia. }
    rewrite Ey. clear Ey.
    set (c100 := if q100 =? 4 then 3 else q100).
    set (c4 := if q100 =? 4 then 24 else q4).
    assert (C100 : 0 <= c100 <= 3)
      by (unfold c100; destruct (Z.eqb_spec q100 4); lia).
    assert (C4 : 0 <= c4 <= 24)
      by (unfold c4; destruct (Z.eqb_spec q100 4); lia).
    assert (Hleap : is_leap (q400 * 400 + 1 + c100 * 100 + c4 * 4 + 3) = true).
    { rewrite is_leap_split by lia. unfold c100, c4.
      destruct (Z.eqb_spec q100 4); [reflexivity|].
      destruct (Z.eqb_spec q4 24); [exfalso; lia | reflexivity]. }
    split; [|split].
    + unfold valid_date. cbn [year month day].
      change (days_in_month (q400 * 400 + 1 + c100 * 100 + c4 * 4 + 3) 12)
        with 31. lia.
    + cbn [year]. lia.
    + unfold ymd2ord, days_before_month. cbn [year month day].
      rewrite Hleap, days_before_year_split by lia.
      change (DAYS_BEFORE_MONTH 12) with 334. simpl andb. cbv iota.
      unfold c100, c4. destruct (Z.eqb_spec q100 4); lia.
  - apply orb_false_iff in Esp. destruct Esp as [N1 N100].
    apply Z.eqb_neq in N1, N100.
    set (y := q400 * 400 + 1 + q100 * 100 + q4 * 4 + q1).
    assert (Hleap : is_leap y = (q1 =? 3) && (negb (q4 =? 24) || (q100 =? 3)))
      by (apply is_leap_split; lia).
    rewrite <- Hleap.
    destruct (@month_day_ok r4 (is_leap y) ltac:(lia)) as [Hm [Hd Hp]].
    set (m := fst (month_day r4 (is_leap y))) in *.
    set (d := snd (month_day r4 (is_leap y))) in *.
    split; [|split].
    + unfold valid_date. cbn [year month day].
      rewrite days_in_month_table by exact Hm. lia.
    + cbn [year]. unfold y. lia.
    + unfold ymd2ord, days_before_month. cbn [year month day].
      unfold y at 1. rewrite days_before_year_split by lia. lia.
Qed.

Lemma days_before_year_mono y y' :
  y <= y' -> days_before_year y <= days_before_year y'.
Proof. intros H. unfold days_before_year. Z.div_mod_to_equations. lia. Qed.

Lemma days_before_year_next y :
  days_before_year (y + 1)
  = days_before_year y + 365 + (if is_leap y then 1 else 0).
Proof.
  unfold days_before_year, is_leap.
  replace (y + 1 - 1) with y by lia.
  destruct (Z.eqb_spec (y mod 4) 0); destruct (Z.eqb_spec (y mod 100) 0);
    destruct (Z.eqb_spec (y mod 400) 0); simpl;
    Z.div_mod_to_equations; lia.
Qed.

Lemma days_before_year_nonneg y : 1 <= y -> 0 <= days_before_year y.
Proof. intros H. unfold days_before_year. Z.div_mod_to_equations. lia. Qed.

Lemma month_table_check_all :
  forallb (month_table_check false) (Aggregate.zrange 1 12) = true /\
  forallb (month_table_check true) (Aggregate.zrange 1 12) = true.
Proof. split; vm_compute; reflexivity. Qed.

Lemma days_before_month_bounds y m :
  1 <= m <= 12 ->
  0 <= days_before_month y m /\
  1 <= days_in_month y m /\
  days_before_month y m + days_in_month y m
  <= 365 + (if is_leap y then 1 else 0) /\
  (m < 12 ->
   days_before_month y (m + 1) = days_before_month y m + days_in_month y m).
Proof.
  intros Hm. rewrite days_in_month_table by exact Hm.
  unfold days_before_month.
  assert (Hc : month_table_check (is_leap y) m = true).
  { destruct month_table_check_all as [H0 H1].
    destruct (is_leap y).
    - rewrite forallb_forall in H1. apply H1. apply zrange_In. lia.
    - rewrite forallb_forall in H0. apply H0. apply zrange_In. lia. }
  unfold month_table_check in Hc. cbv zeta in Hc.
  rewrite !andb_true_iff, orb_true_iff, !Z.leb_le, Z.eqb_eq in Hc.
  lia.
Qed.

Lemma days_before_month_mono y m m' :
  1 <= m -> m < m' -> m' <= 12 ->
  days_before_month y m + days_in_month y m <= days_before_month y m'.
Proof.
  intros H1 Hlt H12.
  assert (Hgen : forall k : nat,
             m + 1 + Z.of_nat k <= 12 ->
             days_before_month y m + days_in_month y m
             <= days_before_month y (m + 1 + Z.of_nat k)).
  { induction k as [|k IH]; intros Hk.
    - replace (m + 1 + Z.of_nat 0) with (m + 1) by lia.
      destruct (@days_before_month_bounds y m ltac:(lia)) as [_ [_ [_ E]]].
      rewrite E by lia. lia.
    - replace (m + 1 + Z.of_nat (S k)) with (m + 1 + Z.of_nat k + 1) by lia.
      destruct (@days_before_month_bounds y (m + 1 + Z.of_nat k) ltac:(lia))
        as [_ [Hpos [_ E]]].
      rewrite E by lia.
      specialize (IH ltac:(lia)). lia. }
  specialize (Hgen (Z.to_nat (m' - m - 1)) ltac:(lia)).
  replace (m + 1 + Z.of_nat (Z.to_nat (m' - m - 1))) with m' in Hgen by lia.
  exact Hgen.
Qed.

Lemma ymd2ord_lt (a b : date) :
  valid_date a -> valid_date b -> date_lt a b -> ymd2ord a < ymd2ord b.
Proof.
  intros [Ma Da] [Mb Db] Hlt. unfold ymd2ord.
  destruct (@days_before_month_bounds (year a) (month a) Ma) as [A0 [_ [A1 _]]].
  destruct (@days_before_month_bounds (year b) (month b) Mb) as [B0 [_ [B1 _]]].
  destruct Hlt as [Hy|[Hy [Hm|[Hm Hd]]]].
  - pose proof (days_before_year_next (year a)) as Hn.
    pose proof (@days_before_year_mono (year a + 1) (year b) ltac:(lia)). lia.
  - rewrite Hy in *.
    pose proof (@days_before_month_mono (year b) (month a) (month b)
                  ltac:(lia) Hm ltac:(lia)). lia.
  - rewrite Hy, Hm. lia.
Qed.

Lemma date_trichotomy (a b : date) : date_lt a b \/ a = b \/ date_lt b a.
Proof.
  destruct a as [ya ma da], b as [yb mb db]. unfold date_lt. simpl.
  destruct (Z.lt_trichotomy ya yb) as [H|[H|H]]; [lia| |lia].
  destruct (Z.lt_trichotomy ma mb) as [H'|[H'|H']]; [lia| |lia].
  destruct (Z.lt_trichotomy da db) as [H''|[H''|H'']]; [lia| |lia].
  right. left. congruence.
Qed.

Lemma ymd2ord_lt_inv (a b : date) :
  valid_date a -> valid_date b -> ymd2ord a < ymd2ord b -> date_lt a b.
Proof.
  intros Va Vb H. destruct (date_trichotomy a b) as [L|[E|L]]; [exact L| |].
  - subst. lia.
  - apply ymd2ord_lt in L; auto. lia.
Qed.

Lemma ymd2ord_inj (a b : date) :
  valid_date a -> valid_date b -> ymd2ord a = ymd2ord b -> a = b.
Proof.
  intros Va Vb H. destruct (date_trichotomy a b) as [L|[E|L]]; [|exact E|];
    apply ymd2ord_lt in L; auto; lia.
Qed.

Lemma ymd2ord_pos (d : date) : valid_date d -> 1 <= year d -> 1 <= ymd2ord d.
Proof.
  intros [Hm Hd] Hy. unfold ymd2ord.
  pose proof (days_before_year_nonneg Hy).
  destruct (@days_before_month_bounds (year d) (month d) Hm) as [H0 _]. lia.
Qed.

(** The two conversions are inverse to each other on the dates of the
    calendar. *)
Lemma ord2ymd_ymd2ord (d : date) :
  valid_date d -> 1 <= year d -> ord2ymd (ymd2ord d) = d.
Proof.
  intros Vd Hy. pose proof (ymd2ord_pos Vd Hy) as Hp.
  destruct (ord2ymd_ok Hp) as [V [_ E]].
  apply ymd2ord_inj; assumption.
Qed.

(** X18. [random_date] returns a moment between [start] and [end], both
    included, at the time of day of [start], whenever [start] is not after
    [end]. *)
Theorem random_date_between (start end_ : datetime) (g : RandomState) :
  valid_datetime start -> valid_datetime end_ -> dt_le start end_ ->
  dt_le start (fst (random_date start end_ g)) /\
  dt_le (fst (random_date start end_ g)) end_ /\
  valid_datetime (fst (random_date start end_ g)) /\
  dt_seconds (fst (random_date start end_ g)) = dt_seconds start.
Proof.
  intros [Vs [Ys Ss]] [Ve [Ye Se]] Hle. unfold random_date, sub.
  cbn [td_days].
  set (days := ymd2ord (dt_date end_) - ymd2ord (dt_date start)
               + (dt_seconds end_ - dt_seconds start) / 86400).
  pose proof (Z.div_mod (dt_seconds end_ - dt_seconds start) 86400 ltac:(lia))
    as Eq.
  pose proof (Z.mod_pos_bound (dt_seconds end_ - dt_seconds start) 86400
                ltac:(lia)) as Bq.
  set (q := (dt_seconds end_ - dt_seconds start) / 86400) in *.
  assert (Hq : -1 <= q <= 0) by lia.
  assert (Hdays : 0 <= days /\
            (ymd2ord (dt_date start) + days < ymd2ord (dt_date end_) \/
             (ymd2ord (dt_date start) + days = ymd2ord (dt_date end_) /\
              dt_seconds start <= dt_seconds end_))).
  { unfold days. destruct Hle as [L|[E L]].
    - apply ymd2ord_lt in L; auto. lia.
    - rewrite E. lia. }
  destruct Hdays as [Hd0 Hd1].
  pose proof (@randint_range 0 (days + 1) g ltac:(lia)) as Hk.
  destruct (randint 0 (days + 1) g) as [k g']. cbn [fst] in *.
  pose proof (ymd2ord_pos Vs Ys) as Hps.
  destruct (@ord2ymd_ok (ymd2ord (dt_date start) + k) ltac:(lia)) as [V [Y E]].
  unfold add_days. cbn [dt_date dt_seconds]. unfold dt_le, valid_datetime.
  cbn [dt_date dt_seconds].
  set (d := ord2ymd (ymd2ord (dt_date start) + k)) in *.
  split; [|split; [|split; [auto|reflexivity]]].
  - destruct (Z.eq_dec k 0) as [->|Hk0].
    + right. split; [|lia]. symmetry. unfold d. rewrite Z.add_0_r.
      apply ord2ymd_ymd2ord; assumption.
    + left. apply ymd2ord_lt_inv; auto. lia.
  - destruct (Z.lt_trichotomy (ymd2ord d) (ymd2ord (dt_date end_)))
      as [H|[H|H]].
    + left. apply ymd2ord_lt_inv; auto.
    + right. split; [apply ymd2ord_inj; auto | lia].
    + exfalso. lia.
Qed.
End OrdinalFacts.

Section GeneratorMore.
Import Text Datetime Csv Generator.

Lemma gen_loop_Forall (P : record -> Prop) :
  (forall g, P (fst (gen_record g))) ->
  forall n g acc, Forall P acc -> Forall P (fst (gen_loop n g acc)).
Proof.
  intros HP. induction n as [|n IH]; intros g acc Hacc; cbn [gen_loop].
  - exact Hacc.
  - pose proof (HP g) as Hr. destruct (gen_record g) as [r g'].
    cbn [fst] in Hr. apply IH. apply Forall_app.
    split; [exact Hacc | constructor; [exact Hr | constructor]].
Qed.

(** X19. The generator produces exactly [NUM_RECORDS] records, and the
    crime type and the district of every record are entries of the
    configured lists. *)
Theorem records_labels (g : RandomState) :
  List.length (records g) = NUM_RECORDS /\
  forall r, In r (records g) ->
    In (r_crime r) CRIME_TYPES /\ In (r_district r) DISTRICTS.
Proof.
  destruct (records_in_config g) as [Hall Hlen]. split; [exact Hlen|].
  rewrite Forall_forall in Hall. intros r Hr.
  destruct (Hall r Hr) as [_ [Hc [Hd _]]]. split; [exact Hc | exact Hd].
Qed.

(** Every generated coordinate is a whole number of millionths of a
    degree: the values are rounded to six decimals. *)
Lemma records_six_decimals (g : RandomState) :
  Forall (fun r => exists a b : Z,
            (r_lat r == inject_Z a / inject_Z 1000000)%Q /\
            (r_lon r == inject_Z b / inject_Z 1000000)%Q)
         (records g).
Proof.
  unfold records. apply gen_loop_Forall; [|constructor].
  intros g0. unfold gen_record.
  destruct (random_date START_DATE END_DATE g0) as [d g1].
  destruct (choice CRIME_TYPES g1) as [crime g2].
  destruct (choice DISTRICTS g2) as [district g3].
  destruct (uniform LAT_MIN LAT_MAX g3) as [u1 g4].
  destruct (uniform LON_MIN LON_MAX g4) as [u2 g5].
  cbn [fst r_lat r_lon].
  exists (rint (u1 * inject_Z 1000000)), (rint (u2 * inject_Z 1000000)).
  unfold round6. split; apply Qeq_refl.
Qed.

End GeneratorMore.

(** ** The further statements on example data *)

Section MoreInstances.
Import Filter Aggregate Forecast Csv Loader Report Datetime Generator.

Lemma inverted_date_range_witness :
  ~ date_le (mkdate 2025 3 9) (mkdate 2025 1 10) /\
  filtered gap_frame (mkdate 2025 3 9) (mkdate 2025 1 10) "All"
           ["Harare"; "Gweru"]%string = [].
Proof.
  assert (H : ~ date_le (mkdate 2025 3 9) (mkdate 2025 1 10))
    by (unfold date_le; simpl; lia).
  split; [exact H|].
  exact (@inverted_date_range gap_frame (mkdate 2025 3 9) (mkdate 2025 1 10)
           "All"%string ["Harare"; "Gweru"]%string H).
Defined.

Lemma filtered_monotone_witness :
  date_le (mkdate 2025 1 10) (mkdate 2025 3 1) /\
  date_le (mkdate 2025 3 5) (mkdate 2025 3 9) /\
  incl ["Harare"%string] ["Harare"; "Gweru"]%string /\
  incl (filtered gap_frame (mkdate 2025 3 1) (mkdate 2025 3 5) "All"
                 ["Harare"%string])
       (filtered gap_frame (mkdate 2025 1 10) (mkdate 2025 3 9) "All"
                 ["Harare"; "Gweru"]%string).
Proof.
  assert (H1 : date_le (mkdate 2025 1 10) (mkdate 2025 3 1))
    by (unfold date_le; simpl; lia).
  assert (H2 : date_le (mkdate 2025 3 5) (mkdate 2025 3 9))
    by (unfold date_le; simpl; lia).
  assert (H3 : incl ["Harare"%string] ["Harare"; "Gweru"]%string)
    by (intros x [<-|[]]; left; reflexivity).
  split; [exact H1|]. split; [exact H2|]. split; [exact H3|].
  exact (@filtered_monotone gap_frame (mkdate 2025 3 1) (mkdate 2025 1 10)
           (mkdate 2025 3 5) (mkdate 2025 3 9) "All"%string
           ["Harare"%string] ["Harare"; "Gweru"]%string H1 H2 H3).
Defined.

Lemma category_selected_witness :
  "Theft"%string <> "All"%string /\
  (forall r, In r (filtered gap_frame (mkdate 2025 1 10) (mkdate 2025 3 9)
                            "Theft" ["Harare"; "Gweru"]%string) ->
     Crime_Type r = "Theft"%string) /\
  ucat (filtered gap_frame (mkdate 2025 1 10) (mkdate 2025 3 9)
                 "Theft" ["Harare"; "Gweru"]%string) <= 1.
Proof.
  assert (H : "Theft"%string <> "All"%string) by discriminate.
  split; [exact H|].
  exact (@category_selected gap_frame (mkdate 2025 1 10) (mkdate 2025 3 9)
           "Theft"%string ["Harare"; "Gweru"]%string H).
Defined.

Lemma fig_ts_ends_witness :
  valid_frame gap_filtered /\ gap_filtered <> [] /\
  exists rlo rhi first last,
    In rlo gap_filtered /\ In rhi gap_filtered /\
    (forall r, In r gap_filtered ->
       ts_le (Date rlo) (Date r) /\ ts_le (Date r) (Date rhi)) /\
    hd_error (fig_ts gap_filtered) = Some first /\
    List.last (fig_ts gap_filtered) first = last /\
    month_key (fst first) = month_key (Date rlo) /\
    month_key (fst last) = month_key (Date rhi) /\
    1 <= snd first /\ 1 <= snd last.
Proof.
  assert (Hv : valid_frame gap_filtered)
    by (apply valid_frameb_ok; vm_compute; reflexivity).
  assert (Hne : gap_filtered <> []) by (vm_compute; discriminate).
  split; [exact Hv|]. split; [exact Hne|].
  exact (@fig_ts_ends gap_filtered Hv Hne).
Defined.

Lemma forecast_available_witness :
  valid_frame anchor_frame /\
  (2 <= List.length (distinct_months
                       (rows_of_district anchor_frame "Harare"%string)))%nat /\
  exists p, forecast_block true anchor_frame "Harare" = Some p.
Proof.
  assert (Hv : valid_frame anchor_frame)
    by (apply valid_frameb_ok; vm_compute; reflexivity).
  assert (Hm : (2 <= List.length (distinct_months
                  (rows_of_district anchor_frame "Harare"%string)))%nat)
    by (vm_compute; lia).
  split; [exact Hv|]. split; [exact Hm|].
  exact (@forecast_available anchor_frame "Harare"%string Hv Hm).
Defined.

Lemma upload_takes_precedence_witness :
  read_csv default_file = Returned default_frame /\
  load_frame empty_fs (Some default_file) fresh_session
  = (Returned default_frame,
     mksession (sidebar fresh_session
                ++ [success (List.length (data default_frame))])
               (cache fresh_session)).
Proof.
  assert (H : read_csv default_file = Returned default_frame)
    by (vm_compute; reflexivity).
  split; [exact H|].
  exact (@upload_takes_precedence empty_fs default_file default_frame
           fresh_session H).
Defined.

Lemma load_data_served_from_cache_witness :
  load_data example_fs "crime_data.csv" fresh_session
  = (Returned default_frame, loaded_session) /\
  load_data empty_fs "crime_data.csv" loaded_session
  = (Returned default_frame, loaded_session).
Proof.
  assert (H : load_data example_fs "crime_data.csv" fresh_session
              = (Returned default_frame, loaded_session))
    by (vm_compute; reflexivity).
  split; [exact H|].
  exact (@load_data_served_from_cache example_fs empty_fs
           "crime_data.csv"%string fresh_session loaded_session
           default_frame H).
Defined.

Lemma load_data_failure_not_cached_witness :
  load_data empty_fs "crime_data.csv" fresh_session
  = (Raised (FileNotFoundError "crime_data.csv"), fresh_session) /\
  example_fs "crime_data.csv"%string = Some default_file /\
  read_csv default_file = Returned default_frame /\
  fresh_session = fresh_session /\
  fst (load_data example_fs "crime_data.csv" fresh_session)
  = Returned default_frame.
Proof.
  assert (H1 : load_data empty_fs "crime_data.csv" fresh_session
               = (Raised (FileNotFoundError "crime_data.csv"), fresh_session))
    by (vm_compute; reflexivity).
  assert (H2 : example_fs "crime_data.csv"%string = Some default_file)
    by reflexivity.
  assert (H3 : read_csv default_file = Returned default_frame)
    by (vm_compute; reflexivity).
  split; [exact H1|]. split; [exact H2|]. split; [exact H3|].
  exact (@load_data_failure_not_cached empty_fs example_fs
           "crime_data.csv"%string fresh_session fresh_session
           (FileNotFoundError "crime_data.csv") default_file default_frame
           H1 H2 H3).
Defined.

Lemma some_world_names_used : temp_names_used some_world.
Proof.
  unfold temp_names_used, some_world. simpl.
  repeat (constructor; [lia|]). constructor.
Defined.

Lemma generate_pdf_removes_temp_files_witness :
  temp_names_used some_world /\
  temp_files (snd (generate_pdf some_metrics four_figures some_world))
  = temp_files some_world.
Proof.
  split; [exact some_world_names_used|].
  exact (@generate_pdf_removes_temp_files some_metrics four_figures some_world
           some_world_names_used).
Defined.

Lemma generate_pdf_pages_witness :
  temp_names_used some_world /\
  hd_error (fst (generate_pdf some_metrics four_figures some_world))
  = Some (title_page some_metrics) /\
  List.length (fst (generate_pdf some_metrics four_figures some_world))
  = S (List.length (List.filter written four_figures)) /\
  (List.length (fst (generate_pdf some_metrics four_figures some_world))
   <= S (List.length four_figures))%nat /\
  st_errors (snd (generate_pdf some_metrics four_figures some_world))
  = st_errors some_world ++ collect_errors four_figures.
Proof.
  split; [exact some_world_names_used|].
  exact (@generate_pdf_pages some_metrics four_figures some_world
           some_world_names_used).
Defined.

Lemma start_date_valid : valid_datetime START_DATE.
Proof.
  unfold valid_datetime, valid_date.
  repeat split; vm_compute; first [reflexivity | discriminate].
Defined.

Lemma end_date_valid : valid_datetime END_DATE.
Proof.
  unfold valid_datetime, valid_date.
  repeat split; vm_compute; first [reflexivity | discriminate].
Defined.

Lemma start_before_end : dt_le START_DATE END_DATE.
Proof.
  left. unfold date_lt, START_DATE, END_DATE. simpl. lia.
Defined.

Lemma random_date_between_witness :
  valid_datetime START_DATE /\ valid_datetime END_DATE /\
  dt_le START_DATE END_DATE /\
  dt_le START_DATE (fst (random_date START_DATE END_DATE some_rng)) /\
  dt_le (fst (random_date START_DATE END_DATE some_rng)) END_DATE /\
  valid_datetime (fst (random_date START_DATE END_DATE some_rng)) /\
  dt_seconds (fst (random_date START_DATE END_DATE some_rng))
  = dt_seconds START_DATE.
Proof.
  split; [exact start_date_valid|]. split; [exact end_date_valid|].
  split; [exact start_before_end|].
  exact (@random_date_between START_DATE END_DATE some_rng start_date_valid
           end_date_valid start_before_end).
Defined.

End MoreInstances.

(** ** Frames with missing cells: statements *)

Section MissingTheorems.
Import Aggregate WithMissing.

Lemma dropna_map_Some (A B : Type) (g : A -> B) (l : list A) :
  dropna (map (fun x => Some (g x)) l) = map g l.
Proof. induction l as [|x l IH]; simpl; [reflexivity|]. rewrite IH. reflexivity. Qed.

Lemma dropna_In (A : Type) (x : A) (s : list (option A)) :
  In x (dropna s) <-> In (Some x) s.
Proof.
  induction s as [|[y|] s IH]; simpl; [tauto| |].
  - rewrite IH. split; intros [H|H]; auto; left; congruence.
  - rewrite IH. split; [auto|]. intros [H|H]; [discriminate | exact H].
Qed.

Lemma dropna_length_present (A : Type) (g : mrow -> option A) (f : MFrame) :
  List.length (dropna (map g f))
  = List.length (List.filter (fun r => present (g r)) f).
Proof.
  induction f as [|r f IH]; simpl; [reflexivity|].
  destruct (g r); simpl; rewrite IH; reflexivity.
Qed.

Lemma same_label_eq a b : same_label a b = true <-> a = b.
Proof.
  destruct a as [x|], b as [y|]; simpl; split; intros H;
    try discriminate; try reflexivity.
  - apply String.eqb_eq in H. congruence.
  - injection H as ->. apply String.eqb_refl.
Qed.

Lemma unique_missing_In x s : In x (WithMissing.unique s) <-> In x s.
Proof.
  induction s as [|y s IH]; simpl; [tauto|].
  rewrite filter_In, IH, negb_true_iff.
  destruct (same_label x y) eqn:E.
  - apply same_label_eq in E. subst. split; intros _; left; reflexivity.
  - split.
    + intros [H|[H _]]; [left; exact H | right; exact H].
    + intros [H|H]; [|right; split; [exact H | reflexivity]].
      subst. rewrite (proj2 (same_label_eq x x) eq_refl) in E. discriminate.
Qed.

Lemma getitem_mask_filter (f : mrow -> bool) (F : MFrame) :
  WithMissing.getitem_mask F (map f F) = List.filter f F.
Proof.
  unfold WithMissing.getitem_mask.
  induction F as [|r F IH]; simpl; [reflexivity|].
  destruct (f r); simpl; rewrite IH; reflexivity.
Qed.

Lemma filtered_missing_filter F start end_ category districts :
  WithMissing.filtered F start end_ category districts
  = List.filter (WithMissing.kept start end_ category districts) F.
Proof.
  unfold WithMissing.filtered, WithMissing.mask, WithMissing.between,
    WithMissing.isin, WithMissing.series_eq, WithMissing.dt_date.
  rewrite !map_map, band_map.
  destruct (not_all category) eqn:E.
  - rewrite band_map, getitem_mask_filter. apply filter_ext. intros r.
    unfold WithMissing.kept. rewrite E. simpl.
    destruct (mDate r); reflexivity.
  - rewrite getitem_mask_filter. apply filter_ext. intros r.
    unfold WithMissing.kept. rewrite E. simpl. rewrite andb_true_r.
    destruct (mDate r); reflexivity.
Qed.

Lemma keep_missing_true start end_ category districts r :
  WithMissing.kept start end_ category districts r = true <->
  (exists t, mDate r = Some t /\
             date_le start (ts_date t) /\ date_le (ts_date t) end_) /\
  In (mDistrict r) districts /\
  (not_all category = false \/
   exists a, mCrime_Type r = Some a /\ category = Some a).
Proof.
  unfold WithMissing.kept.
  rewrite !andb_true_iff, orb_true_iff, negb_true_iff, existsb_exists.
  split.
  - intros [[Hd [y [Hy Ey]]] Hc]. apply same_label_eq in Ey. subst y.
    split; [|split; [exact Hy|]].
    + destruct (mDate r) as [t|]; [|discriminate]. exists t.
      rewrite andb_true_iff, !date_leb_le in Hd. tauto.
    + destruct Hc as [Hc|Hc]; [left; exact Hc|]. right.
      destruct (mCrime_Type r) as [a|]; [|discriminate].
      destruct category as [b|]; [|discriminate].
      apply String.eqb_eq in Hc. subst. exists b. auto.
  - intros [[t [Et [H1 H2]]] [Hd Hc]]. split; [split|].
    + rewrite Et, andb_true_iff, !date_leb_le. auto.
    + exists (mDistrict r). split; [exact Hd | apply same_label_eq; reflexivity].
    + destruct Hc as [Hc|[a [Ea Ec]]]; [left; exact Hc|]. right.
      rewrite Ea, Ec. apply String.eqb_refl.
Qed.

Lemma month_bins_rows (df : DataFrame) :
  groupby_month_size df = month_bins (map Date df).
Proof.
  unfold groupby_month_size, month_bins.
  destruct (series_min (map Date df)); [|reflexivity].
  destruct (series_max (map Date df)); [|reflexivity].
  apply map_ext. intros mo. f_equal. unfold count_month. f_equal.
  induction df as [|r df IH]; simpl; [reflexivity|].
  destruct (month_ord (Date r) =? mo); simpl; rewrite IH; reflexivity.
Qed.

Lemma month_bins_sum (ts : list Timestamp) :
  (forall t, In t ts -> valid_ts t) ->
  zsum (map snd (month_bins ts)) = Z.of_nat (List.length ts).
Proof.
  intros Hv.
  set (stub := fun t => mkrow t EmptyString 0%Q 0%Q EmptyString).
  assert (E : map Date (map stub ts) = ts).
  { rewrite map_map. simpl. apply map_id. }
  rewrite <- E at 1. rewrite <- month_bins_rows, groupby_month_size_sum.
  - rewrite length_map. reflexivity.
  - unfold valid_frame. apply Forall_forall. intros r Hr.
    apply in_map_iff in Hr. destruct Hr as [t [<- Ht]]. simpl. apply Hv.
    exact Ht.
Qed.

(** On a frame without missing cells the two models agree. *)
Lemma aggregate_of_rows (df : DataFrame) :
  WithMissing.aggregate (map of_row df) = Aggregate.aggregate df.
Proof.
  unfold WithMissing.aggregate, Aggregate.aggregate, WithMissing.tot,
    WithMissing.ucat, WithMissing.dud, WithMissing.fig_ts,
    WithMissing.fig_pie, WithMissing.fig_bar, Aggregate.tot, Aggregate.ucat,
    Aggregate.dud, Aggregate.fig_ts, Aggregate.fig_pie, Aggregate.fig_bar.
  rewrite !map_map. simpl.
  rewrite (dropna_map_Some Date), (dropna_map_Some Crime_Type),
    (dropna_map_Some District), length_map, month_bins_rows.
  reflexivity.
Qed.

Lemma keep_of_row start end_ category districts (r : row) :
  WithMissing.kept start end_ (Some category) (map Some districts) (of_row r)
  = keep start end_ category districts r.
Proof.
  unfold WithMissing.kept, keep, of_row, not_all. cbn [mDate mDistrict mCrime_Type].
  rewrite negb_involutive. f_equal. f_equal.
  induction districts as [|d ds IH]; simpl; [reflexivity|].
  rewrite IH. reflexivity.
Qed.

Lemma filtered_of_rows (df : DataFrame) start end_ category districts :
  WithMissing.filtered (map of_row df) start end_ (Some category)
                       (map Some districts)
  = map of_row (Filter.filtered df start end_ category districts).
Proof.
  rewrite filtered_missing_filter, filtered_filter.
  induction df as [|r df IH]; simpl; [reflexivity|].
  rewrite keep_of_row.
  destruct (keep start end_ category districts r); simpl; rewrite IH;
    reflexivity.
Qed.

Lemma filtered_missing_In F start end_ category districts r :
  In r (WithMissing.filtered F start end_ category districts) <->
  In r F /\ WithMissing.kept start end_ category districts r = true.
Proof. rewrite filtered_missing_filter. apply filter_In. Qed.

Lemma present_true (A : Type) (x : option A) : present x = true <-> x <> None.
Proof. destruct x; simpl; split; congruence. Qed.

Lemma filter_length_all (A : Type) (f : A -> bool) (l : list A) :
  List.length (List.filter f l) = List.length l <->
  forall x, In x l -> f x = true.
Proof.
  induction l as [|x l IH]; simpl.
  - split; [intros _ y [] | reflexivity].
  - destruct (f x) eqn:E; simpl.
    + split.
      * intros H y [<-|Hy]; [exact E|].
        apply (proj1 IH); [lia | exact Hy].
      * intros H. f_equal. apply (proj2 IH). intros y Hy. apply H.
        right. exact Hy.
    + split.
      * intros H. pose proof (filter_length_le f l). lia.
      * intros H. specialize (H x (or_introl eq_refl)). congruence.
Qed.

Lemma tot_count_present (A : Type) (g : mrow -> option A) (f : MFrame) :
  WithMissing.tot f = count_present g f <-> forall r, In r f -> g r <> None.
Proof.
  unfold WithMissing.tot, count_present. split.
  - intros H r Hr. apply present_true.
    apply (proj1 (filter_length_all (fun r => present (g r)) f));
      [apply Nat2Z.inj; symmetry; exact H | exact Hr].
  - intros H. f_equal. symmetry.
    apply (proj2 (filter_length_all (fun r => present (g r)) f)).
    intros r Hr. apply present_true. apply H. exact Hr.
Qed.

Lemma default_missing_bounds F c :
  WithMissing.default_criteria F = Some c ->
  WithMissing.category c = Some "All"%string /\
  WithMissing.districts c = WithMissing.district_options F /\
  forall r t, In r F -> mDate r = Some t ->
    date_le (WithMissing.start c) (ts_date t) /\
    date_le (ts_date t) (WithMissing.end_ c).
Proof.
  unfold WithMissing.default_criteria, WithMissing.min_date,
    WithMissing.max_date.
  destruct (series_min (dropna (map mDate F))) as [lo|] eqn:Emin;
    [|discriminate].
  destruct (series_max (dropna (map mDate F))) as [hi|] eqn:Emax;
    [|discriminate].
  simpl. intros [= <-]. simpl. split; [reflexivity|]. split; [reflexivity|].
  apply series_min_spec in Emin. apply series_max_spec in Emax.
  intros r t Hr Et.
  assert (Ht : In t (dropna (map mDate F))).
  { apply dropna_In. rewrite <- Et. apply in_map. exact Hr. }
  split; apply ts_le_date_le; [apply Emin | apply Emax]; exact Ht.
Qed.

Lemma default_missing_exists F :
  (exists r, In r F /\ mDate r <> None) ->
  exists c, WithMissing.default_criteria F = Some c.
Proof.
  intros [r [Hr Hd]]. destruct (mDate r) as [t|] eqn:Et; [|congruence].
  assert (Ht : In t (dropna (map mDate F))).
  { apply dropna_In. rewrite <- Et. apply in_map. exact Hr. }
  unfold WithMissing.default_criteria, WithMissing.min_date,
    WithMissing.max_date.
  destruct (dropna (map mDate F)) as [|t0 ts]; [contradiction|].
  simpl. eexists. reflexivity.
Qed.

(** C9, the claim as stated fails: the second row of [missing_frame] has
    no crime type; the default filter keeps it, the total counts it and
    no group of the category breakdown does, so the total is 3 and the
    counts of the breakdown add up to 2. *)
Lemma aggregate_missing_label :
  WithMissing.default_criteria missing_frame = Some missing_defaults /\
  total_count (WithMissing.aggregate missing_filtered) = 3 /\
  category_breakdown (WithMissing.aggregate missing_filtered)
  = [("Theft"%string, 2)] /\
  total_count (WithMissing.aggregate missing_filtered)
  <> zsum (map snd (category_breakdown (WithMissing.aggregate missing_filtered))).
Proof.
  split; [vm_compute; reflexivity|].
  split; [vm_compute; reflexivity|].
  split; [vm_compute; reflexivity|].
  vm_compute. discriminate.
Qed.

(** C9, as amended.  For the frame the filter gives, the total equals the
    sum of the counts of the monthly series; the counts of the category
    breakdown add up to the number of filtered rows whose crime type is
    present and those of the district breakdown to the number of filtered
    rows whose district is present.  So the total equals the sum of a
    breakdown exactly when no filtered row misses the label of that
    breakdown. *)
Theorem aggregate_counts_present (F : MFrame) (c : WithMissing.criteria)
        (f : MFrame) :
  valid_dates F ->
  f = WithMissing.apply_criteria F c ->
  total_count (WithMissing.aggregate f)
  = zsum (map snd (monthly_series (WithMissing.aggregate f))) /\
  zsum (map snd (category_breakdown (WithMissing.aggregate f)))
  = count_present mCrime_Type f /\
  zsum (map snd (district_breakdown (WithMissing.aggregate f)))
  = count_present mDistrict f /\
  (total_count (WithMissing.aggregate f)
   = zsum (map snd (category_breakdown (WithMissing.aggregate f)))
   <-> forall r, In r f -> mCrime_Type r <> None) /\
  (total_count (WithMissing.aggregate f)
   = zsum (map snd (district_breakdown (WithMissing.aggregate f)))
   <-> forall r, In r f -> mDistrict r <> None).
Proof.
  intros Hv Ef.
  assert (Hin : forall r, In r f -> In r F /\ mDate r <> None).
  { intros r Hr. rewrite Ef in Hr. unfold WithMissing.apply_criteria in Hr.
    apply filtered_missing_In in Hr. destruct Hr as [Hr Hk].
    apply keep_missing_true in Hk. destruct Hk as [[t [Et _]] _].
    split; [exact Hr | congruence]. }
  unfold WithMissing.aggregate.
  cbn [total_count monthly_series category_breakdown district_breakdown].
  assert (Hm : zsum (map snd (WithMissing.fig_ts f)) = WithMissing.tot f).
  { unfold WithMissing.fig_ts, WithMissing.tot. rewrite month_bins_sum.
    - rewrite dropna_length_present.
      rewrite (proj2 (filter_length_all (fun r => present (mDate r)) f));
        [reflexivity|].
      intros r Hr. apply present_true. apply (Hin r Hr).
    - intros t Ht. apply dropna_In, in_map_iff in Ht.
      destruct Ht as [r [Et Hr]]. destruct (Hin r Hr) as [HF _].
      unfold valid_dates in Hv. rewrite Forall_forall in Hv.
      specialize (Hv r HF). rewrite Et in Hv. exact Hv. }
  assert (Hp : zsum (map snd (WithMissing.fig_pie f))
               = count_present mCrime_Type f).
  { unfold WithMissing.fig_pie, count_present.
    rewrite value_counts_sum, dropna_length_present. reflexivity. }
  assert (Hb : zsum (map snd (WithMissing.fig_bar f))
               = count_present mDistrict f).
  { unfold WithMissing.fig_bar, count_present.
    rewrite groupby_size_sum, dropna_length_present. reflexivity. }
  split; [symmetry; exact Hm|]. split; [exact Hp|]. split; [exact Hb|].
  rewrite Hp, Hb. split; apply tot_count_present.
Qed.

(** X1. When some row has a date the widgets have default values.  With
    the widgets left at their defaults the filter keeps only rows of the
    frame whose date is present, and it keeps every row whose date and
    district are present; on a frame where every district is present the
    filtered frame is the loaded frame without the rows whose date is
    missing. *)
Theorem default_criteria_keep_dated (F : MFrame) :
  (exists r, In r F /\ mDate r <> None) ->
  exists c,
    WithMissing.default_criteria F = Some c /\
    (forall r, In r (WithMissing.apply_criteria F c) ->
       In r F /\ mDate r <> None) /\
    (forall r, In r F -> mDate r <> None -> mDistrict r <> None ->
       In r (WithMissing.apply_criteria F c)) /\
    ((forall r, In r F -> mDistrict r <> None) ->
     WithMissing.apply_criteria F c
     = List.filter (fun r => present (mDate r)) F).
Proof.
  intros Hex. destruct (@default_missing_exists F Hex) as [c Hc].
  exists c. split; [exact Hc|].
  destruct (@default_missing_bounds F c Hc) as [Hcat [Hdis Hdates]].
  assert (Hk : forall r, In r F ->
            WithMissing.kept (WithMissing.start c) (WithMissing.end_ c)
              (WithMissing.category c) (WithMissing.districts c) r
            = present (mDate r)).
  { intros r Hr. destruct (mDate r) as [t|] eqn:Et; simpl.
    - apply keep_missing_true. split; [|split].
      + exists t. split; [exact Et | apply (Hdates r t Hr Et)].
      + rewrite Hdis. unfold WithMissing.district_options.
        apply unique_missing_In. apply in_map. exact Hr.
      + left. rewrite Hcat. reflexivity.
    - unfold WithMissing.kept. rewrite Et. reflexivity. }
  unfold WithMissing.apply_criteria. split; [|split].
  - intros r Hr. apply filtered_missing_In in Hr. destruct Hr as [Hr Hkr].
    split; [exact Hr|]. apply present_true. rewrite <- (Hk r Hr). exact Hkr.
  - intros r Hr Hd _. apply filtered_missing_In. split; [exact Hr|].
    rewrite (Hk r Hr). apply present_true. exact Hd.
  - intros _. rewrite filtered_missing_filter. revert Hk. clear.
    induction F as [|r F IH]; intros Hk; simpl; [reflexivity|].
    rewrite (Hk r (or_introl eq_refl)), IH; [reflexivity|].
    intros x Hx. apply Hk. right. exact Hx.
Qed.

(** X5. With the dates and the districts left at their defaults, on a
    frame where every district is present, an option of the category
    select box gives at least one row exactly when it is a label (not
    the missing value) and some row with a date bears it, or it is
    ["All"] and some row has a date. *)
Theorem category_option_rows (F : MFrame) (c : WithMissing.criteria)
        (choice : option string) :
  WithMissing.default_criteria F = Some c ->
  In choice (WithMissing.category_options F) ->
  (forall r, In r F -> mDistrict r <> None) ->
  (WithMissing.filtered F (WithMissing.start c) (WithMissing.end_ c) choice
                        (WithMissing.districts c) <> []
   <-> exists a r, choice = Some a /\ In r F /\ mDate r <> None /\
                   (a = "All"%string \/ mCrime_Type r = Some a)).
Proof.
  intros Hc _ _.
  destruct (@default_missing_bounds F c Hc) as [_ [Hdis Hdates]].
  split.
  - intros Hne.
    destruct (WithMissing.filtered F (WithMissing.start c)
                (WithMissing.end_ c) choice (WithMissing.districts c))
      as [|r l] eqn:E; [congruence|].
    assert (Hr : In r (WithMissing.filtered F (WithMissing.start c)
                         (WithMissing.end_ c) choice (WithMissing.districts c)))
      by (rewrite E; left; reflexivity).
    apply filtered_missing_In in Hr. destruct Hr as [Hr Hk].
    apply keep_missing_true in Hk.
    destruct Hk as [[t [Et _]] [_ Hcat]].
    destruct Hcat as [Hall|[a [Ea Ec]]].
    + unfold not_all in Hall. destruct choice as [a|]; [|discriminate].
      apply negb_false_iff, String.eqb_eq in Hall.
      exists a, r. split; [reflexivity|]. split; [exact Hr|].
      split; [congruence | left; exact Hall].
    + exists a, r. split; [exact Ec|]. split; [exact Hr|].
      split; [congruence | right; exact Ea].
  - intros [a [r [Ec [Hr [Hd Hcat]]]]] E.
    assert (Hin : In r (WithMissing.filtered F (WithMissing.start c)
                          (WithMissing.end_ c) choice (WithMissing.districts c))).
    { apply filtered_missing_In. split; [exact Hr|].
      apply keep_missing_true.
      destruct (mDate r) as [t|] eqn:Et; [|congruence].
      split; [|split].
      - exists t. split; [reflexivity | apply (Hdates r t Hr Et)].
      - rewrite Hdis. unfold WithMissing.district_options.
        apply unique_missing_In. apply in_map. exact Hr.
      - subst choice. destruct Hcat as [->|Hcat].
        + left. reflexivity.
        + right. exists a. split; [exact Hcat | reflexivity]. }
    rewrite E in Hin. exact Hin.
Qed.

Lemma missing_frame_valid : valid_dates missing_frame.
Proof.
  unfold valid_dates, missing_frame.
  repeat constructor; vm_compute; first [reflexivity | discriminate].
Qed.

Lemma aggregate_counts_present_witness :
  valid_dates missing_frame /\
  missing_filtered = WithMissing.apply_criteria missing_frame missing_defaults /\
  total_count (WithMissing.aggregate missing_filtered)
  = zsum (map snd (monthly_series (WithMissing.aggregate missing_filtered))) /\
  zsum (map snd (category_breakdown (WithMissing.aggregate missing_filtered)))
  = count_present mCrime_Type missing_filtered /\
  zsum (map snd (district_breakdown (WithMissing.aggregate missing_filtered)))
  = count_present mDistrict missing_filtered /\
  (total_count (WithMissing.aggregate missing_filtered)
   = zsum (map snd (category_breakdown (WithMissing.aggregate missing_filtered)))
   <-> forall r, In r missing_filtered -> mCrime_Type r <> None) /\
  (total_count (WithMissing.aggregate missing_filtered)
   = zsum (map snd (district_breakdown (WithMissing.aggregate missing_filtered)))
   <-> forall r, In r missing_filtered -> mDistrict r <> None).
Proof.
  split; [exact missing_frame_valid|]. split; [reflexivity|].
  exact (@aggregate_counts_present missing_frame missing_defaults
           missing_filtered missing_frame_valid eq_refl).
Defined.

Lemma default_criteria_keep_dated_witness :
  (exists r, In r missing_frame /\ mDate r <> None) /\
  exists c,
    WithMissing.default_criteria missing_frame = Some c /\
    (forall r, In r (WithMissing.apply_criteria missing_frame c) ->
       In r missing_frame /\ mDate r <> None) /\
    (forall r, In r missing_frame -> mDate r <> None -> mDistrict r <> None ->
       In r (WithMissing.apply_criteria missing_frame c)) /\
    ((forall r, In r missing_frame -> mDistrict r <> None) ->
     WithMissing.apply_criteria missing_frame c
     = List.filter (fun r => present (mDate r)) missing_frame).
Proof.
  assert (H : exists r, In r missing_frame /\ mDate r <> None).
  { eexists. split; [left; reflexivity | discriminate]. }
  split; [exact H | exact (@default_criteria_keep_dated missing_frame H)].
Defined.

Lemma category_option_rows_witness :
  WithMissing.default_criteria missing_frame = Some missing_defaults /\
  In (Some "Fraud"%string) (WithMissing.category_options missing_frame) /\
  (forall r, In r missing_frame -> mDistrict r <> None) /\
  (WithMissing.filtered missing_frame (WithMissing.start missing_defaults)
     (WithMissing.end_ missing_defaults) (Some "Fraud"%string)
     (WithMissing.districts missing_defaults) <> []
   <-> exists a r, Some "Fraud"%string = Some a /\ In r missing_frame /\
                   mDate r <> None /\
                   (a = "All"%string \/ mCrime_Type r = Some a)).
Proof.
  assert (H1 : WithMissing.default_criteria missing_frame
               = Some missing_defaults) by (vm_compute; reflexivity).
  assert (H2 : In (Some "Fraud"%string)
                  (WithMissing.category_options missing_frame))
    by (vm_compute; right; right; right; left; reflexivity).
  assert (H3 : forall r, In r missing_frame -> mDistrict r <> None).
  { intros r [<-|[<-|[<-|[<-|[]]]]]; discriminate. }
  split; [exact H1|]. split; [exact H2|]. split; [exact H3|].
  exact (@category_option_rows missing_frame missing_defaults
           (Some "Fraud"%string) H1 H2 H3).
Defined.

End MissingTheorems.
